(** * wvsee: the Weaviate data-access layer and the collection route

    A shallow embedding of [src/lib/weaviate.ts] (getCollectionData,
    executeQuery, getCollections, executeAggregateQuery, getObjectCount) and of
    [src/app/api/collection/[name]/route.ts] (the DELETE and GET handlers).

    Modelling decisions, all visible in the definitions below:
    - An [async] function is a computation in the monad [M]: it takes the
      history of requests sent to the database so far and returns either a
      thrown error or a value, together with the extended history.  The
      history survives a throw, so "no request was issued" is a statement
      about the final history.
    - The database is a deterministic function of the history and of the
      request ([Remote]); a stateful server is such a function.
    - GraphQL response bodies are untyped JSON values ([JSON]); an absent
      member is [None] (JavaScript's [undefined]).  A JSON object is the
      association list of its own members.  A read [v[k]] with a key that the
      caller chooses ([Json.read]) also finds the members that the prototype
      of [v] supplies ([constructor], [toString], [__proto__], ...), as
      opaque values ([Native]); the keys the source writes out ([data],
      [Get], [Aggregate], [meta], [count], [0]) are supplied by no prototype
      ([written_keys_plain]), and reading them is reading an own member
      ([read_written_key]).
    - The schema body is taken at the type the source ascribes to it
      ([WeaviateSchemaResponse]); members that the wire format carries and
      the TypeScript type does not list are kept in [sp_extra].
    - [console.log] and [console.error] are not modelled: a [catch] block that
      logs and rethrows is [try_catch _ (fun error => throw error)].
    - [deleteCollection] is imported by the route and its body is not among
      the sources; it is the database's class-delete primitive. *)

From Stdlib Require Import String Ascii List ZArith Bool Arith Lia.
Import ListNotations.
Local Open Scope string_scope.
Local Open Scope list_scope.

(** ** Strings: [split], [pop], [join], template literals *)

Module Js.

(** The line feed of a template literal that spans several source lines. *)
Definition LF : string := String (ascii_of_nat 10) EmptyString.

(** [s.split(sep)] for a one-character separator: never empty, the empty
    string gives one empty segment. *)
Fixpoint split (sep : ascii) (s : string) : list string :=
  match s with
  | EmptyString => [EmptyString]
  | String c rest =>
      if Ascii.eqb c sep then EmptyString :: split sep rest
      else match split sep rest with
           | seg :: segs => String c seg :: segs
           | [] => [String c EmptyString]
           end
  end.

(** [arr.pop()]: the last element, [undefined] on an empty array. *)
Fixpoint pop {A : Type} (l : list A) : option A :=
  match l with
  | [] => None
  | [x] => Some x
  | _ :: rest => pop rest
  end.

(** [arr.join(sep)] on an array of strings. *)
Fixpoint join (sep : string) (l : list string) : string :=
  match l with
  | [] => EmptyString
  | [x] => x
  | x :: rest => x ++ sep ++ join sep rest
  end.

(** [s] has no occurrence of the character [c]. *)
Fixpoint lacks (c : ascii) (s : string) : bool :=
  match s with
  | EmptyString => true
  | String d rest => negb (Ascii.eqb d c) && lacks c rest
  end.

(** [s.includes(t)]. *)
Fixpoint includes (s t : string) : bool :=
  String.prefix t s ||
  match s with
  | EmptyString => false
  | String _ rest => includes rest t
  end.

(** Truthiness of a string: [!name] holds exactly for the empty string. *)
Definition nonempty (s : string) : bool :=
  match s with EmptyString => false | String _ _ => true end.

End Js.

(** ** JSON values and the JavaScript operators the source applies to them *)

#[local] Set Warnings "-register-all".

Inductive JSON : Type :=
| JNull
| JBool (b : bool)
| JNum (n : Z)
| JStr (s : string)
| JArr (items : list JSON)
| JObj (members : list (string * JSON)).

(** A JavaScript value that came out of a JSON document: [None] is
    [undefined]. *)
Definition JsValue : Type := option JSON.

(** The kinds of value a member can be read from, each with its prototype. *)
Inductive Kind : Type := KObject | KArray | KString | KNumber | KBoolean.

(** A value that is reached through a prototype and is no JSON value: the
    built-in function [name] supplied by the prototype of [owner], or the
    prototype object itself, which is what reading [__proto__] gives. *)
Inductive Native : Type :=
| Method (owner : Kind) (name : string)
| Proto (kind : Kind).

(** What a read with an arbitrary key can give: a value of the document or
    an inherited one. *)
Inductive Value : Type :=
| Doc (j : JSON)
| Inherited (n : Native).

(** What a [throw] carries; every error the source raises or receives is an
    [Error] instance with a [name] and a [message]. *)
Record JsError : Type := mkError { err_name : string; err_message : string }.

Definition Error (msg : string) : JsError := mkError "Error" msg.
Definition TypeError (msg : string) : JsError := mkError "TypeError" msg.

Module Json.

(** Own member of an object. *)
Fixpoint lookup (k : string) (members : list (string * JSON)) : JsValue :=
  match members with
  | [] => None
  | (k', v) :: rest => if String.eqb k k' then Some v else lookup k rest
  end.

Definition digit_of (c : ascii) : option nat :=
  let n := nat_of_ascii c in
  if Nat.leb 48 n && Nat.leb n 57 then Some (n - 48) else None.

Fixpoint digits_value (s : string) (acc : nat) : option nat :=
  match s with
  | EmptyString => Some acc
  | String c rest =>
      match digit_of c with
      | Some d => digits_value rest (10 * acc + d)
      | None => None
      end
  end.

(** A property key that is a canonical array index: "0", or decimal digits
    without a leading zero. *)
Definition array_index (k : string) : option nat :=
  match k with
  | EmptyString => None
  | String c rest =>
      if Ascii.eqb c "0"
      then match rest with EmptyString => Some 0 | _ => None end
      else digits_value k 0
  end.

(** The own member [k] of a value that is neither [null] nor [undefined]:
    the members of an object, the elements and the [length] of an array or
    of a string; a number and a boolean have none.  What a prototype
    supplies is added by [read] below. *)
Definition member (v : JSON) (k : string) : JsValue :=
  match v with
  | JObj members => lookup k members
  | JArr items =>
      if String.eqb k "length" then Some (JNum (Z.of_nat (length items)))
      else match array_index k with
           | Some i => nth_error items i
           | None => None
           end
  | JStr s =>
      if String.eqb k "length" then Some (JNum (Z.of_nat (String.length s)))
      else match array_index k with
           | Some i =>
               match String.get i s with
               | Some c => Some (JStr (String c EmptyString))
               | None => None
               end
           | None => None
           end
  | JNull | JBool _ | JNum _ => None
  end.

(** [v == null]: the value is [null] or [undefined]. *)
Definition nullish (v : JsValue) : bool :=
  match v with
  | None | Some JNull => true
  | Some _ => false
  end.

(** [v.k] for a key that no prototype supplies: a TypeError on [null] and
    [undefined], else the own member. *)
Definition get (v : JsValue) (k : string) : JsError + JsValue :=
  match v with
  | None => inl (TypeError ("Cannot read properties of undefined (reading '" ++ k ++ "')"))
  | Some JNull => inl (TypeError ("Cannot read properties of null (reading '" ++ k ++ "')"))
  | Some j => inr (member j k)
  end.

(** [v?.k] for a key that no prototype supplies: [undefined] on [null] and
    [undefined], else the own member. *)
Definition opt (v : JsValue) (k : string) : JsValue :=
  match v with
  | None | Some JNull => None
  | Some j => member j k
  end.

(** [v ?? d]. *)
Definition coalesce (v : JsValue) (d : JSON) : JSON :=
  match v with
  | None | Some JNull => d
  | Some j => j
  end.

(** Truthiness: [undefined], [null], [false], [0] and [""] are falsy;
    every array and object is truthy. *)
Definition truthy (v : JsValue) : bool :=
  match v with
  | None | Some JNull => false
  | Some (JBool b) => b
  | Some (JNum n) => negb (Z.eqb n 0)
  | Some (JStr s) => Js.nonempty s
  | Some (JArr _) | Some (JObj _) => true
  end.

Definition is_array (j : JSON) : bool :=
  match j with JArr _ => true | _ => false end.

(** The names [Object.prototype] supplies (ECMAScript 2023 with Annex B). *)
Definition Object_prototype : list string :=
  ["constructor"; "__defineGetter__"; "__defineSetter__"; "hasOwnProperty";
   "__lookupGetter__"; "__lookupSetter__"; "isPrototypeOf";
   "propertyIsEnumerable"; "toString"; "valueOf"; "__proto__";
   "toLocaleString"].

(** The names [Array.prototype] supplies; [length] is an own member. *)
Definition Array_prototype : list string :=
  ["constructor"; "at"; "concat"; "copyWithin"; "fill"; "find"; "findIndex";
   "findLast"; "findLastIndex"; "lastIndexOf"; "pop"; "push"; "reverse";
   "shift"; "unshift"; "slice"; "sort"; "splice"; "includes"; "indexOf";
   "join"; "keys"; "entries"; "values"; "forEach"; "filter"; "flat";
   "flatMap"; "map"; "every"; "some"; "reduce"; "reduceRight";
   "toLocaleString"; "toString"; "toReversed"; "toSorted"; "toSpliced";
   "with"].

(** The names [String.prototype] supplies; [length] is an own member. *)
Definition String_prototype : list string :=
  ["constructor"; "anchor"; "at"; "big"; "blink"; "bold"; "charAt";
   "charCodeAt"; "codePointAt"; "concat"; "endsWith"; "fontcolor";
   "fontsize"; "fixed"; "includes"; "indexOf"; "italics"; "lastIndexOf";
   "link"; "localeCompare"; "match"; "matchAll"; "normalize"; "padEnd";
   "padStart"; "repeat"; "replace"; "replaceAll"; "search"; "slice"; "small";
   "split"; "strike"; "sub"; "substr"; "substring"; "sup"; "startsWith";
   "toString"; "trim"; "trimStart"; "trimLeft"; "trimEnd"; "trimRight";
   "toLocaleLowerCase"; "toLocaleUpperCase"; "toLowerCase"; "toUpperCase";
   "valueOf"].

Definition Number_prototype : list string :=
  ["constructor"; "toExponential"; "toFixed"; "toPrecision"; "toString";
   "valueOf"; "toLocaleString"].

Definition Boolean_prototype : list string :=
  ["constructor"; "toString"; "valueOf"].

Definition prototype (kind : Kind) : list string :=
  match kind with
  | KObject => Object_prototype
  | KArray => Array_prototype
  | KString => String_prototype
  | KNumber => Number_prototype
  | KBoolean => Boolean_prototype
  end.

Definition kind_of (v : JSON) : option Kind :=
  match v with
  | JNull => None
  | JBool _ => Some KBoolean
  | JNum _ => Some KNumber
  | JStr _ => Some KString
  | JArr _ => Some KArray
  | JObj _ => Some KObject
  end.

Definition has (names : list string) (k : string) : bool :=
  existsb (String.eqb k) names.

(** What the prototype chain of a value of this kind supplies for [k]:
    [__proto__] reads the prototype itself; a method comes from the kind's
    own prototype, else from [Object.prototype]. *)
Definition inherited_from (kind : Kind) (k : string) : option Native :=
  if String.eqb k "__proto__" then Some (Proto kind)
  else if has (prototype kind) k then Some (Method kind k)
  else if has Object_prototype k then Some (Method KObject k)
  else None.

Definition inherited (kind : Kind) (k : string) : bool :=
  match inherited_from kind k with Some _ => true | None => false end.

(** [v[k]] on a value that is neither [null] nor [undefined], for any key:
    the own member, else what the prototype chain supplies. *)
Definition read (v : JSON) (k : string) : option Value :=
  match member v k with
  | Some x => Some (Doc x)
  | None =>
      match kind_of v with
      | Some kind =>
          match inherited_from kind k with
          | Some n => Some (Inherited n)
          | None => None
          end
      | None => None
      end
  end.

(** [v[k]] for any key: a TypeError on [null] and [undefined]. *)
Definition index (v : JsValue) (k : string) : JsError + option Value :=
  match v with
  | None => inl (TypeError ("Cannot read properties of undefined (reading '" ++ k ++ "')"))
  | Some JNull => inl (TypeError ("Cannot read properties of null (reading '" ++ k ++ "')"))
  | Some j => inr (read j k)
  end.

(** Truthiness of a value: functions and prototype objects are truthy. *)
Definition truthy_value (v : Value) : bool :=
  match v with
  | Doc j => truthy (Some j)
  | Inherited _ => true
  end.

(** [v || []]. *)
Definition or_empty (v : option Value) : Value :=
  match v with
  | Some x => if truthy_value x then x else Doc (JArr [])
  | None => Doc (JArr [])
  end.

(** [v ?? []]. *)
Definition else_empty (v : option Value) : Value :=
  match v with
  | None | Some (Doc JNull) => Doc (JArr [])
  | Some x => x
  end.

(** [v[0]] on a value that is neither [null] nor [undefined]: no function
    and no prototype object has an element 0. *)
Definition first (v : Value) : JsValue :=
  match v with
  | Doc j => member j "0"
  | Inherited _ => None
  end.

(** What [JSON.stringify] makes of a value that is a member of an object:
    a function is left out; [Object.prototype] is written as an empty
    object, [Array.prototype] as an empty array, and the prototypes of
    the wrapper objects as the primitive they wrap. *)
Definition stringify (v : Value) : option JSON :=
  match v with
  | Doc j => Some j
  | Inherited (Method _ _) => None
  | Inherited (Proto KObject) => Some (JObj [])
  | Inherited (Proto KArray) => Some (JArr [])
  | Inherited (Proto KString) => Some (JStr EmptyString)
  | Inherited (Proto KNumber) => Some (JNum 0)
  | Inherited (Proto KBoolean) => Some (JBool false)
  end.

(** The keys that the source writes out in its member accesses. *)
Definition written_keys : list string :=
  ["data"; "Get"; "Aggregate"; "meta"; "count"; "0"].

(** The object literal [{ k: v }] as [JSON.stringify] writes it. *)
Definition entry (k : string) (v : Value) : list (string * JSON) :=
  match stringify v with
  | Some j => [(k, j)]
  | None => []
  end.

End Json.

(** ** Data model *)

(** One entry of [properties] in a class of the /v1/schema response.  The
    source types it [{ name: string }]; the members the database sends
    besides [name] (dataType, description, ...) stay in [sp_extra]. *)
Record SchemaProperty : Type := {
  sp_name : string;
  sp_extra : list (string * JSON)
}.

(** [type WeaviateClass]. *)
Record WeaviateClass : Type := {
  class : string;
  wc_description : option string;
  wc_properties : option (list SchemaProperty)
}.

(** [type WeaviateSchemaResponse]. *)
Record WeaviateSchemaResponse : Type := {
  classes : option (list WeaviateClass)
}.

(** An entry of [CollectionInfo.properties]. *)
Record PropertyInfo : Type := {
  prop_name : string;
  prop_description : option string;
  prop_dataType : option (list string)
}.

(** [interface CollectionInfo].  [count] is declared [number]; it holds
    whatever JSON value the aggregate response carries at [meta.count],
    since nothing checks it at run time. *)
Record CollectionInfo : Type := {
  name : string;
  description : option string;
  count : JSON;
  properties : list PropertyInfo
}.

(** An element of the [properties] argument of [getCollectionData], as the
    GET handler builds it. *)
Record PropertyArg : Type := {
  arg_name : string;
  arg_dataType : list string
}.

(** The sort directive the GET handler builds from the query parameters. *)
Record SortDirective : Type := {
  property : string;
  order : string
}.

(** ** The database, requests and the monad of [async] functions *)

(** What the process sends to the database. *)
Inductive Request : Type :=
| GetSchema (url : string)
| PostGraphql (url : string) (query : string)
| DeleteClass (className : string).

Definition History : Type := list Request.

(** What [fetch] resolves to: [json] is the outcome of [response.json()],
    a rejection when the body is not JSON. *)
Record Response (B : Type) : Type := {
  status : nat;
  statusText : string;
  json : JsError + B
}.
Arguments status {B} _.
Arguments statusText {B} _.
Arguments json {B} _.

(** [response.ok]: the status is in the range 200-299. *)
Definition ok {B : Type} (r : Response B) : bool :=
  Nat.leb 200 (status r) && Nat.leb (status r) 299.

(** [fetch] rejects (network failure) or resolves to a response. *)
Inductive Fetched (B : Type) : Type :=
| Rejected (e : JsError)
| Resolved (r : Response B).
Arguments Rejected {B} _.
Arguments Resolved {B} _.

(** The database as seen from this process: its answer to a request, given
    everything that was sent before. *)
Record Remote : Type := {
  schema_endpoint : History -> string -> Fetched WeaviateSchemaResponse;
  graphql_endpoint : History -> string -> string -> Fetched JSON;
  delete_class : History -> string -> option JsError
}.

(** An [async] function returning [A]. *)
Definition M (A : Type) : Type := History -> (JsError + A) * History.

Definition ret {A : Type} (a : A) : M A := fun h => (inr a, h).

Definition throw {A : Type} (e : JsError) : M A := fun h => (inl e, h).

Definition bind {A B : Type} (m : M A) (k : A -> M B) : M B :=
  fun h =>
    match m h with
    | (inl e, h') => (inl e, h')
    | (inr a, h') => k a h'
    end.

(** A synchronous expression that may throw. *)
Definition lift {A : Type} (r : JsError + A) : M A := fun h => (r, h).

(** [try { m } catch (error) { handler error }]. *)
Definition try_catch {A : Type} (m : M A) (handler : JsError -> M A) : M A :=
  fun h =>
    match m h with
    | (inl e, h') => handler e h'
    | (inr a, h') => (inr a, h')
    end.

(** The [try] block alone, its outcome reified; what follows decides what
    the [catch] block does. *)
Definition attempt {A : Type} (m : M A) : M (JsError + A) :=
  fun h => let (r, h') := m h in (inr r, h').

(** A call with one argument more than the callee declares parameters: the
    surplus argument is evaluated and dropped. *)
Definition surplus {A B : Type} (call : A) (_ : B) : A := call.

Declare Scope js_scope.
Delimit Scope js_scope with js.
Notation "x <- m ;; k" := (bind m (fun x => k))
  (at level 61, m at next level, right associativity) : js_scope.
Notation "m ;;; k" := (bind m (fun _ => k))
  (at level 61, right associativity) : js_scope.
Local Open Scope js_scope.

(** ** The platform's URL parser and the framework's request and response *)

(** What [new URL(s)] exposes to the GET handler. *)
Record URL : Type := {
  pathname : string;
  searchParams : list (string * string)
}.

(** [url.searchParams.get(key)]: the first value of the key, else [null]. *)
Fixpoint searchParams_get (params : list (string * string)) (key : string)
  : option string :=
  match params with
  | [] => None
  | (k, v) :: rest => if String.eqb k key then Some v else searchParams_get rest key
  end.

(** [NextRequest]: the handlers read only [request.url]. *)
Record NextRequest : Type := { url : string }.

(** [NextResponse.json(body, { status })]. *)
Record NextResponse : Type := {
  reply_status : nat;
  reply_body : JSON
}.

Definition NextResponse_json (body : JSON) (init_status : option nat) : NextResponse :=
  {| reply_status := match init_status with Some s => s | None => 200 end;
     reply_body := body |}.

(** ** src/lib/weaviate.ts *)

Section Weaviate.

(** The configured base URL of the database (the module throws at load time
    when it is absent). *)
Variable WEAVIATE_URL : string.

Variable remote : Remote.

(** [fetch(url)] on the schema endpoint. *)
Definition fetch_schema (url : string) : M (Response WeaviateSchemaResponse) :=
  fun h =>
    match schema_endpoint remote h url with
    | Rejected e => (inl e, h ++ [GetSchema url])
    | Resolved r => (inr r, h ++ [GetSchema url])
    end.

(** [fetch(url, { method: 'POST', headers, body: JSON.stringify({ query }) })]
    on the GraphQL endpoint. *)
Definition fetch_graphql (url queryStr : string) : M (Response JSON) :=
  fun h =>
    match graphql_endpoint remote h url queryStr with
    | Rejected e => (inl e, h ++ [PostGraphql url queryStr])
    | Resolved r => (inr r, h ++ [PostGraphql url queryStr])
    end.

(** [executeQuery], lines 140-169.  [response.json()] is returned without
    [await], so its rejection passes by the [catch] block, which rethrows
    anyway. *)
Definition executeQuery (queryStr : string) : M JSON :=
  try_catch
    (response <- fetch_graphql (WEAVIATE_URL ++ "/v1/graphql") queryStr ;;
     if negb (ok response)
     then throw (Error ("Query failed: " ++ statusText response))
     else lift (json response))
    (fun error => throw error).

(** The template literal of [getCollectionData], lines 3-9. *)
Definition getQuery (className : string) (properties : list PropertyArg) : string :=
  "{" ++ Js.LF ++
  "      Get {" ++ Js.LF ++
  "        " ++ className ++ " {" ++ Js.LF ++
  "          " ++ Js.join Js.LF (map arg_name properties) ++ Js.LF ++
  "        }" ++ Js.LF ++
  "      }" ++ Js.LF ++
  "    }".

(** [getCollectionData], lines 1-21. *)
Definition getCollectionData (className : string) (properties : list PropertyArg)
  : M Value :=
  try_catch
    (let query := getQuery className properties in
     response <- executeQuery query ;;
     if negb (Json.truthy (Json.opt (Json.opt (Some response) "data") "Get"))
     then throw (Error "Invalid response structure from Weaviate")
     else
       data <- lift (Json.get (Some response) "data") ;;
       Get <- lift (Json.get data "Get") ;;
       rows <- lift (Json.index Get className) ;;
       ret (Json.or_empty rows))
    (fun error => throw error).

(** [executeAggregateQuery], lines 240-270. *)
Definition executeAggregateQuery (queryStr : string) : M JSON :=
  try_catch
    (response <- fetch_graphql (WEAVIATE_URL ++ "/v1/graphql") queryStr ;;
     if negb (ok response)
     then throw (Error ("Query failed: " ++ statusText response))
     else lift (json response))
    (fun error => throw error).

(** The template literal of [getObjectCount], lines 277-286. *)
Definition aggregateQuery (className : string) : string :=
  Js.LF ++
  "  {" ++ Js.LF ++
  "    Aggregate {" ++ Js.LF ++
  "      " ++ className ++ " {" ++ Js.LF ++
  "        meta {" ++ Js.LF ++
  "          count" ++ Js.LF ++
  "        }" ++ Js.LF ++
  "      }" ++ Js.LF ++
  "    }" ++ Js.LF ++
  "  }".

(** [aggregateResponse?.data.Aggregate[className] ?? []], lines 298-299:
    the optional chain stops at a [null] response; below it, [.Aggregate]
    and [[className]] are plain accesses and throw on [null] and
    [undefined]. *)
Definition aggregateData (aggregateResponse : JSON) (className : string)
  : JsError + Value :=
  if Json.nullish (Some aggregateResponse) then inr (Doc (JArr []))
  else
    match Json.get (Json.member aggregateResponse "data") "Aggregate" with
    | inl e => inl e
    | inr Aggregate =>
        match Json.index Aggregate className with
        | inl e => inl e
        | inr entries => inr (Json.else_empty entries)
        end
    end.

(** [getObjectCount], lines 276-303.  The [try] block holds the call of
    [executeAggregateQuery] only; its [catch] block returns 0. *)
Definition getObjectCount (className : string) : M JSON :=
  attempted <- attempt (executeAggregateQuery (aggregateQuery className)) ;;
  match attempted with
  | inl error => ret (JNum 0)
  | inr aggregateResponse =>
      data <- lift (aggregateData aggregateResponse className) ;;
      ret (Json.coalesce
             (Json.opt (Json.opt (Json.first data) "meta") "count")
             (JNum 0))
  end.

(** The object literal pushed at lines 212-219. *)
Definition collectionInfo_of (weavClass : WeaviateClass) (count : JSON)
  : CollectionInfo :=
  {| name := class weavClass;
     description := wc_description weavClass;
     count := count;
     properties :=
       match wc_properties weavClass with
       | Some ps =>
           map (fun p => {| prop_name := sp_name p;
                            prop_description := None;
                            prop_dataType := None |}) ps
       | None => []
       end |}.

(** The [for ... of] loop of [getCollections], lines 210-220, with the
    array [result] it pushes to. *)
Fixpoint collect (classes : list WeaviateClass) (result : list CollectionInfo)
  : M (list CollectionInfo) :=
  match classes with
  | [] => ret result
  | weavClass :: rest =>
      count <- getObjectCount (class weavClass) ;;
      collect rest (result ++ [collectionInfo_of weavClass count])
  end.

(** [schema.classes ?? []], line 207. *)
Definition declared (schema : WeaviateSchemaResponse) : list WeaviateClass :=
  match classes schema with
  | Some cs => cs
  | None => []
  end.

(** [getCollections], lines 196-235. *)
Definition getCollections : M (list CollectionInfo) :=
  try_catch
    (response <- fetch_schema (WEAVIATE_URL ++ "/v1/schema") ;;
     if negb (ok response)
     then throw (Error ("Failed to fetch schema: " ++ statusText response))
     else
       schema <- lift (json response) ;;
       let classes := declared schema in
       collect classes [])
    (fun error => throw error).

(** Modelled from the spec: [deleteCollection] is imported by the route from
    [@/lib/weaviate] and its body is not among the sources.  "Delegates to
    the database's native class-delete mechanism (treated as an external
    primitive). Fails by propagating whatever error the underlying call
    raises." *)
Definition deleteCollection (name : string) : M unit :=
  fun h =>
    match delete_class remote h name with
    | Some e => (inl e, h ++ [DeleteClass name])
    | None => (inr tt, h ++ [DeleteClass name])
    end.

(** ** src/app/api/collection/[name]/route.ts *)

(** [new URL(s)] of the platform: a TypeError on a string that is not an
    absolute URL. *)
Variable new_URL : string -> JsError + URL.

(** [{ error: 'Failed ...', details: error instanceof Error ? error.message
    : 'Unknown error' }] with status 500. *)
Definition failure_reply (what : string) (error : JsError) : NextResponse :=
  NextResponse_json
    (JObj [("error", JStr what); ("details", JStr (err_message error))])
    (Some 500).

(** [DELETE], lines 9-34. *)
Definition DELETE (request : NextRequest) : M NextResponse :=
  try_catch
    (let name := Js.pop (Js.split "/" (url request)) in
     match name with
     | Some name =>
         if negb (Js.nonempty name)
         then ret (NextResponse_json
                     (JObj [("error", JStr "Collection name is required")])
                     (Some 400))
         else
           deleteCollection name ;;;
           ret (NextResponse_json (JObj [("success", JBool true)]) None)
     | None =>
         ret (NextResponse_json
                (JObj [("error", JStr "Collection name is required")])
                (Some 400))
     end)
    (fun error => ret (failure_reply "Failed to delete collection" error)).

(** [sortProperty && sortOrder ? { property, order } : undefined],
    line 65. *)
Definition sortArgument (sortProperty sortOrder : option string)
  : option SortDirective :=
  match sortProperty, sortOrder with
  | Some p, Some o =>
      if Js.nonempty p && Js.nonempty o
      then Some {| property := p; order := o |}
      else None
  | _, _ => None
  end.

(** The [properties] argument built at lines 61-64:
    [dataType: prop.dataType || ['string']]. *)
Definition propertyArguments (collectionInfo : CollectionInfo) : list PropertyArg :=
  map (fun prop =>
         {| arg_name := prop_name prop;
            arg_dataType :=
              match prop_dataType prop with
              | Some dataType => dataType
              | None => ["string"]
              end |})
      (properties collectionInfo).

(** [(c) => c.name === name], line 51. *)
Definition named (wanted : string) (c : CollectionInfo) : bool :=
  String.eqb (name c) wanted.

(** The body of [GET], lines 36-87, with the imported [getCollectionData]
    as [reader].  [NextResponse.json({ data })] writes the object with
    [JSON.stringify]. *)
Definition GET_calling (reader : string -> list PropertyArg -> M Value)
    (request : NextRequest) : M NextResponse :=
  try_catch
    (url <- lift (new_URL (url request)) ;;
     let name := Js.pop (Js.split "/" (pathname url)) in
     let sortProperty := searchParams_get (searchParams url) "sortProperty" in
     let sortOrder := searchParams_get (searchParams url) "sortOrder" in
     match name with
     | Some name =>
         if negb (Js.nonempty name)
         then ret (NextResponse_json
                     (JObj [("error", JStr "Collection name is required")])
                     (Some 400))
         else
           collections <- getCollections ;;
           match find (named name) collections with
           | None =>
               ret (NextResponse_json
                      (JObj [("error", JStr "Collection not found")])
                      (Some 404))
           | Some collectionInfo =>
               data <- surplus
                         (reader name (propertyArguments collectionInfo))
                         (sortArgument sortProperty sortOrder) ;;
               ret (NextResponse_json (JObj (Json.entry "data" data)) None)
           end
     | None =>
         ret (NextResponse_json
                (JObj [("error", JStr "Collection name is required")])
                (Some 400))
     end)
    (fun error => ret (failure_reply "Failed to fetch data" error)).

(** [GET], with the import bound to [getCollectionData]. *)
Definition GET (request : NextRequest) : M NextResponse :=
  GET_calling getCollectionData request.

End Weaviate.

(** ** The rest of src/lib/weaviate.ts *)

(** The runtime configuration of the framework, as far as the module reads
    it: [serverRuntimeConfig] and [publicRuntimeConfig] may each be absent,
    and so may their [weaviateUrl]. *)
Record RuntimeConfig : Type := { weaviateUrl : option string }.

(** Module initialisation, lines 129-135:
    [serverRuntimeConfig?.weaviateUrl || publicRuntimeConfig?.weaviateUrl],
    and the [throw] when the result is falsy. *)
Definition configure (serverRuntimeConfig publicRuntimeConfig : option RuntimeConfig)
  : JsError + string :=
  let server :=
    match serverRuntimeConfig with Some c => weaviateUrl c | None => None end in
  let public :=
    match publicRuntimeConfig with Some c => weaviateUrl c | None => None end in
  let WEAVIATE_URL :=
    match server with
    | Some s => if Js.nonempty s then Some s else public
    | None => public
    end in
  match WEAVIATE_URL with
  | Some u =>
      if negb (Js.nonempty u) then inl (Error "Weaviate URL is not configured")
      else inr u
  | None => inl (Error "Weaviate URL is not configured")
  end.

Section Objects.

Variable WEAVIATE_URL : string.
Variable remote : Remote.

(** The template literal of [getObjectsByClass], lines 176-185. *)
Definition objectsQuery (className : string) : string :=
  Js.LF ++
  "  {" ++ Js.LF ++
  "    Get {" ++ Js.LF ++
  "      " ++ className ++ " {" ++ Js.LF ++
  "        _additional {" ++ Js.LF ++
  "          id" ++ Js.LF ++
  "        }" ++ Js.LF ++
  "      }" ++ Js.LF ++
  "    }" ++ Js.LF ++
  "  }".

(** [getObjectsByClass], lines 175-190: no [try], no check of the
    envelope; [response.data.Get[className]] is three plain accesses. *)
Definition getObjectsByClass (className : string) : M Value :=
  let query := objectsQuery className in
  response <- executeQuery WEAVIATE_URL remote query ;;
  data <- lift (Json.get (Some response) "data") ;;
  Get <- lift (Json.get data "Get") ;;
  results <- lift (Json.index Get className) ;;
  ret (Json.or_empty results).

(** ** src/app/page.tsx *)

(** The three [useState] cells of [Home]. *)
Record HomeState : Type := {
  st_collections : list CollectionInfo;
  st_loading : bool;
  st_error : option string
}.

(** The initial values: [useState([])], [useState(true)],
    [useState(null)]. *)
Definition Home_initial : HomeState :=
  {| st_collections := []; st_loading := true; st_error := None |}.

Definition setCollections (v : list CollectionInfo) (s : HomeState) : HomeState :=
  {| st_collections := v; st_loading := st_loading s; st_error := st_error s |}.

Definition setLoading (v : bool) (s : HomeState) : HomeState :=
  {| st_collections := st_collections s; st_loading := v; st_error := st_error s |}.

Definition setError (v : option string) (s : HomeState) : HomeState :=
  {| st_collections := st_collections s; st_loading := st_loading s; st_error := v |}.

(** [fetchCollections], lines 13-34: the state when the promise settles.
    Every thrown value is an [Error], so the [catch] block stores its
    message. *)
Definition fetchCollections (s : HomeState) (h : History) : HomeState * History :=
  let s := setLoading true s in
  let (outcome, h') := getCollections WEAVIATE_URL remote h in
  let s :=
    match outcome with
    | inr result => setError None (setCollections result s)
    | inl err => setError (Some (err_message err)) s
    end in
  (setLoading false s, h').

End Objects.

(** What [Home] renders below the heading, lines 44-56. *)
Inductive Content : Type :=
| Spinner
| CollectionsList (collections : list CollectionInfo).

Record HomeView : Type := {
  alert : option string;
  content : Content
}.

(** [{error && (...)}] renders the alert for a non-empty [error];
    [{loading ? ... : ...}] chooses between the spinner and the list. *)
Definition Home_render (s : HomeState) : HomeView :=
  {| alert :=
       match st_error s with
       | Some message => if Js.nonempty message then Some message else None
       | None => None
       end;
     content :=
       if st_loading s then Spinner else CollectionsList (st_collections s) |}.

(** ** Definitions the statements are written with *)

(** What [executeQuery] and [executeAggregateQuery] make of an answer. *)
Definition settled (answer : Fetched JSON) : JsError + JSON :=
  match answer with
  | Rejected e => inl e
  | Resolved r =>
      if ok r then json r else inl (Error ("Query failed: " ++ statusText r))
  end.

(** What [getObjectCount] makes of the outcome of its aggregate query. *)
Definition count_of (className : string) (outcome : JsError + JSON)
  : JsError + JSON :=
  match outcome with
  | inl _ => inr (JNum 0)
  | inr aggregateResponse =>
      match aggregateData aggregateResponse className with
      | inl e => inl e
      | inr data =>
          inr (Json.coalesce
                 (Json.opt (Json.opt (Json.first data) "meta") "count")
                 (JNum 0))
      end
  end.

(** The shape [AggregateResponse | null]: [null], or a value whose [data]
    has an [Aggregate] member, neither being [null]. *)
Definition aggregate_typed (body : JSON) : bool :=
  match body with
  | JNull => true
  | _ =>
      match Json.member body "data" with
      | Some data =>
          negb (Json.nullish (Some data)) &&
          negb (Json.nullish (Json.member data "Aggregate"))
      | None => false
      end
  end.

(** Spec side of the catalog (4.4): "for each declared class fetch its
    object count", one class after another. *)
Fixpoint fetched_counts (WEAVIATE_URL : string) (remote : Remote)
    (classNames : list string) : M (list JSON) :=
  match classNames with
  | [] => ret []
  | className :: rest =>
      count <- getObjectCount WEAVIATE_URL remote className ;;
      counts <- fetched_counts WEAVIATE_URL remote rest ;;
      ret (count :: counts)
  end.

(** Spec side of the reader (4.5): the response lacks "the expected
    [data.Get] envelope" when the response, its [data] or the [Get] of its
    [data] is missing ([null] or absent). *)
Definition lacks_envelope (response : JSON) : bool :=
  match response with
  | JNull => true
  | _ =>
      match Json.member response "data" with
      | None | Some JNull => true
      | Some data => Json.nullish (Json.member data "Get")
      end
  end.

(** The shape [WeaviateResponse]: an object whose [data] is an object whose
    [Get] is an object with arrays as members; the result is the members of
    [Get]. *)
Definition well_formed (response : JSON) : option (list (string * JSON)) :=
  match response with
  | JObj members =>
      match Json.lookup "data" members with
      | Some (JObj data) =>
          match Json.lookup "Get" data with
          | Some (JObj Get) =>
              if forallb (fun kv => Json.is_array (snd kv)) Get
              then Some Get else None
          | _ => None
          end
      | _ => None
      end
  | _ => None
  end.

(** The replies of the route. *)
Definition name_required : NextResponse :=
  {| reply_status := 400;
     reply_body := JObj [("error", JStr "Collection name is required")] |}.

Definition not_found : NextResponse :=
  {| reply_status := 404;
     reply_body := JObj [("error", JStr "Collection not found")] |}.

Definition rows_reply (data : Value) : NextResponse :=
  {| reply_status := 200; reply_body := JObj (Json.entry "data" data) |}.

(** What the GET handler does once the URL is parsed: a function of the
    pathname alone. *)
Definition GET_of_pathname (WEAVIATE_URL : string) (remote : Remote)
    (path : string) : M NextResponse :=
  fun h =>
    match Js.pop (Js.split "/" path) with
    | Some wanted =>
        if Js.nonempty wanted then
          match getCollections WEAVIATE_URL remote h with
          | (inl e, h1) => (inr (failure_reply "Failed to fetch data" e), h1)
          | (inr collections, h1) =>
              match find (named wanted) collections with
              | None => (inr not_found, h1)
              | Some collectionInfo =>
                  match getCollectionData WEAVIATE_URL remote wanted
                          (propertyArguments collectionInfo) h1 with
                  | (inl e, h2) => (inr (failure_reply "Failed to fetch data" e), h2)
                  | (inr data, h2) => (inr (rows_reply data), h2)
                  end
              end
          end
        else (inr name_required, h)
    | None => (inr name_required, h)
    end.

(** The falsy values a document can hold. *)
Definition falsy (v : Value) : Prop :=
  v = Doc JNull \/ v = Doc (JBool false) \/ v = Doc (JNum 0) \/
  v = Doc (JStr EmptyString).

(** What [response.data.Get[className] || []] evaluates to. *)
Definition rows_of (response : JSON) (className : string) : JsError + Value :=
  match Json.get (Some response) "data" with
  | inl e => inl e
  | inr data =>
      match Json.get data "Get" with
      | inl e => inl e
      | inr Get =>
          match Json.index Get className with
          | inl e => inl e
          | inr rows => inr (Json.or_empty rows)
          end
      end
  end.

(** The same for the body of [GET] with any [reader]. *)
Definition GET_calling_of_pathname (WEAVIATE_URL : string) (remote : Remote)
    (reader : string -> list PropertyArg -> M Value) (path : string)
  : M NextResponse :=
  fun h =>
    match Js.pop (Js.split "/" path) with
    | Some wanted =>
        if Js.nonempty wanted then
          match getCollections WEAVIATE_URL remote h with
          | (inl e, h1) => (inr (failure_reply "Failed to fetch data" e), h1)
          | (inr collections, h1) =>
              match find (named wanted) collections with
              | None => (inr not_found, h1)
              | Some collectionInfo =>
                  match reader wanted (propertyArguments collectionInfo) h1 with
                  | (inl e, h2) => (inr (failure_reply "Failed to fetch data" e), h2)
                  | (inr data, h2) => (inr (rows_reply data), h2)
                  end
              end
          end
        else (inr name_required, h)
    | None => (inr name_required, h)
    end.



(** ** A concrete platform and concrete databases, for running the model *)

Module Platform.

(** [s] cut at the first occurrence of [c]. *)
Fixpoint cut (c : ascii) (s : string) : string * option string :=
  match s with
  | EmptyString => (EmptyString, None)
  | String d rest =>
      if Ascii.eqb d c then (EmptyString, Some rest)
      else let (before, after) := cut c rest in (String d before, after)
  end.

Definition parameter_of (piece : string) : string * string :=
  let (k, v) := cut "=" piece in
  (k, match v with Some v => v | None => EmptyString end).

(** The URL parser restricted to [scheme://authority/path?query#fragment]
    without percent-escapes, which is all the examples below need. *)
Definition new_URL (s : string) : JsError + URL :=
  match String.index 0 "://" s with
  | None => inl (TypeError "Invalid URL")
  | Some i =>
      let rest := String.substring (i + 3) (String.length s - (i + 3)) s in
      let (before_fragment, _) := cut "#" rest in
      let (before_query, query) := cut "?" before_fragment in
      let (_, path) := cut "/" before_query in
      inr {| pathname :=
               "/" ++ match path with Some p => p | None => EmptyString end;
             searchParams :=
               match query with
               | Some q => map parameter_of (filter Js.nonempty (Js.split "&" q))
               | None => []
               end |}
  end.

Definition base : string := "http://localhost:8080".

Definition OK (B : Type) (body : B) : Fetched B :=
  Resolved {| status := 200; statusText := "OK"; json := inr body |}.
Arguments OK {B} _.

Definition unavailable (B : Type) : Fetched B :=
  Resolved {| status := 503; statusText := "Service Unavailable";
              json := inl (mkError "SyntaxError" "Unexpected end of JSON input") |}.
Arguments unavailable {B}.

(** A schema with one class, whose property carries a [dataType] on the
    wire. *)
Definition article : WeaviateClass :=
  {| class := "Article";
     wc_description := Some "News articles";
     wc_properties :=
       Some [ {| sp_name := "title";
                 sp_extra := [("dataType", JArr [JStr "text"]);
                              ("description", JStr "Headline")] |} ] |}.

Definition article_rows : JSON := JArr [JObj [("title", JStr "A")]].

Definition article_count : JSON :=
  JObj [("data", JObj [("Aggregate",
     JObj [("Article", JArr [JObj [("meta", JObj [("count", JNum 1)])]])])])].

Definition article_data : JSON :=
  JObj [("data", JObj [("Get", JObj [("Article", article_rows)])])].

Definition title : PropertyArg :=
  {| arg_name := "title"; arg_dataType := ["string"] |}.

(** A database holding one Article. *)
Definition healthy : Remote :=
  {| schema_endpoint := fun _ _ => OK {| classes := Some [article] |};
     graphql_endpoint := fun _ _ q =>
       if String.eqb q (aggregateQuery "Article") then OK article_count
       else if String.eqb q (getQuery "Article" [title]) then OK article_data
       else unavailable;
     delete_class := fun _ _ => None |}.

(** The same database with the GraphQL endpoint down. *)
Definition graphql_down : Remote :=
  {| schema_endpoint := schema_endpoint healthy;
     graphql_endpoint := fun _ _ _ => unavailable;
     delete_class := delete_class healthy |}.

(** The same database with the schema endpoint down. *)
Definition schema_down : Remote :=
  {| schema_endpoint := fun _ _ => unavailable;
     graphql_endpoint := graphql_endpoint healthy;
     delete_class := delete_class healthy |}.

(** A GraphQL endpoint that answers every query with [{ "errors": [] }]. *)
Definition errors_only : Remote :=
  {| schema_endpoint := schema_endpoint healthy;
     graphql_endpoint := fun _ _ _ => OK (JObj [("errors", JArr [])]);
     delete_class := delete_class healthy |}.


Definition catalog : list CollectionInfo :=
  [ {| name := "Article";
       description := Some "News articles";
       count := JNum 1;
       properties := [ {| prop_name := "title";
                          prop_description := None;
                          prop_dataType := None |} ] |} ].

Definition after_catalog : History :=
  [GetSchema "http://localhost:8080/v1/schema";
   PostGraphql "http://localhost:8080/v1/graphql" (aggregateQuery "Article")].

End Platform.

(** More databases to run the model against. *)
Module Fixtures.

(** A database whose GraphQL endpoint answers every query with [body]. *)
Definition always (body : JSON) : Remote :=
  {| schema_endpoint := schema_endpoint Platform.healthy;
     graphql_endpoint := fun _ _ _ => Platform.OK body;
     delete_class := delete_class Platform.healthy |}.

(** A database whose schema has no [classes] member. *)
Definition empty_schema : Remote :=
  {| schema_endpoint := fun _ _ => Platform.OK {| classes := None |};
     graphql_endpoint := graphql_endpoint Platform.healthy;
     delete_class := delete_class Platform.healthy |}.

(** A database that cannot be reached. *)
Definition offline : Remote :=
  {| schema_endpoint := fun _ _ => Rejected (TypeError "fetch failed");
     graphql_endpoint := fun _ _ _ => Rejected (TypeError "fetch failed");
     delete_class := fun _ _ => Some (TypeError "fetch failed") |}.

Definition class_named (n : string) : WeaviateClass :=
  {| class := n; wc_description := None; wc_properties := None |}.

(** A database with three classes, whose aggregate answer for the second
    one carries errors and no data. *)
Definition second_broken : Remote :=
  {| schema_endpoint := fun _ _ =>
       Platform.OK {| classes := Some [Platform.article; class_named "Broken";
                                       class_named "Later"] |};
     graphql_endpoint := fun _ _ q =>
       if String.eqb q (aggregateQuery "Article") then Platform.OK Platform.article_count
       else Platform.OK (JObj [("errors", JArr [])]);
     delete_class := delete_class Platform.healthy |}.

Definition author : WeaviateClass :=
  {| class := "Author";
     wc_description := None;
     wc_properties := Some [ {| sp_name := "name"; sp_extra := [] |};
                             {| sp_name := "born"; sp_extra := [] |} ] |}.

Definition count_answer (className : string) (n : Z) : JSON :=
  JObj [("data", JObj [("Aggregate",
     JObj [(className, JArr [JObj [("meta", JObj [("count", JNum n)])]])])])].

(** A database with three classes: seven authors, one article, and a class
    whose aggregate query fails. *)
Definition library : Remote :=
  {| schema_endpoint := fun _ _ =>
       Platform.OK {| classes := Some [author; Platform.article;
                                       class_named "Draft"] |};
     graphql_endpoint := fun _ _ q =>
       if String.eqb q (aggregateQuery "Author") then Platform.OK (count_answer "Author" 7)
       else if String.eqb q (aggregateQuery "Article") then Platform.OK Platform.article_count
       else Platform.unavailable;
     delete_class := delete_class Platform.healthy |}.

(** A reader that returns the [dataType] lists it was called with. *)
Definition echo_dataTypes (className : string) (properties : list PropertyArg)
  : M Value :=
  ret (Doc (JArr (map (fun a => JArr (map JStr (arg_dataType a))) properties))).

(** An envelope whose [Get] has no member at all. *)
Definition empty_Get : JSON := JObj [("data", JObj [("Get", JObj [])])].

End Fixtures.

(** * Properties *)

(** ** The keys the source writes out are own members *)

Lemma written_keys_plain (kind : Kind) (k : string) :
  In k Json.written_keys -> Json.inherited kind k = false.
Proof.
  intros Hin. repeat (destruct Hin as [<- | Hin]; [destruct kind; reflexivity |]).
  destruct Hin.
Qed.

Lemma read_written_key (v : JSON) (k : string) :
  In k Json.written_keys ->
  Json.read v k =
  match Json.member v k with Some x => Some (Doc x) | None => None end.
Proof.
  intros Hin. unfold Json.read.
  destruct (Json.member v k); [reflexivity |].
  destruct (Json.kind_of v) as [kind |]; [| reflexivity].
  pose proof (written_keys_plain kind k Hin) as Hplain.
  unfold Json.inherited in Hplain.
  destruct (Json.inherited_from kind k); [discriminate | reflexivity].
Qed.

(** ** The last segment of a split *)

Section Segments.

Variable sep : ascii.

Lemma split_not_nil (s : string) : Js.split sep s <> [].
Proof.
  destruct s as [| c rest]; simpl; [discriminate |].
  destruct (Ascii.eqb c sep); [discriminate |].
  destruct (Js.split sep rest); discriminate.
Qed.

Lemma split_lacks (s : string) : Js.lacks sep s = true -> Js.split sep s = [s].
Proof.
  induction s as [| c rest IH]; simpl; intros H; [reflexivity |].
  apply andb_prop in H as [Hc Hrest].
  apply negb_true_iff in Hc. rewrite Hc, (IH Hrest). reflexivity.
Qed.

Lemma pop_snoc {A : Type} (l : list A) (x : A) : Js.pop (l ++ [x]) = Some x.
Proof.
  induction l as [| y l IH]; simpl; [reflexivity |].
  rewrite IH. destruct (l ++ [x]) eqn:E; [| reflexivity].
  destruct l; discriminate.
Qed.

(** Splitting [before ++ sep ++ segment] ends in [segment], after at least
    one other segment. *)
Lemma split_app_sep (before segment : string) :
  Js.lacks sep segment = true ->
  exists front, front <> [] /\
    Js.split sep (before ++ String sep segment) = front ++ [segment].
Proof.
  intros Hseg. induction before as [| c rest (front & Hne & IH)]; simpl.
  - rewrite Ascii.eqb_refl, (split_lacks _ Hseg).
    exists [EmptyString]. split; [discriminate | reflexivity].
  - destruct (Ascii.eqb c sep).
    + exists (EmptyString :: front). rewrite IH. split; [discriminate | reflexivity].
    + rewrite IH. destruct front as [| f front']; [contradiction |].
      simpl. exists (String c f :: front'). split; [discriminate | reflexivity].
Qed.

Lemma pop_split_app_sep (before segment : string) :
  Js.lacks sep segment = true ->
  Js.pop (Js.split sep (before ++ String sep segment)) = Some segment.
Proof.
  intros Hseg. destruct (split_app_sep before segment Hseg) as (front & _ & ->).
  apply pop_snoc.
Qed.

End Segments.

Lemma lacks_app (c : ascii) (s t : string) :
  Js.lacks c (s ++ t) = Js.lacks c s && Js.lacks c t.
Proof.
  induction s as [| d s IH]; simpl; [reflexivity |].
  rewrite IH, andb_assoc. reflexivity.
Qed.

Lemma nonempty_true (s : string) : s <> EmptyString -> Js.nonempty s = true.
Proof. destruct s; [contradiction | reflexivity]. Qed.

(** ** The data-access layer, one request at a time *)

Section Layer.

Variable WEAVIATE_URL : string.
Variable remote : Remote.

Let graphql : string := WEAVIATE_URL ++ "/v1/graphql".

Lemma try_catch_rethrow {A : Type} (m : M A) (h : History) :
  try_catch m (fun error => throw error) h = m h.
Proof. unfold try_catch, throw. destruct (m h) as [[e | a] h']; reflexivity. Qed.

Lemma executeQuery_run (q : string) (h : History) :
  executeQuery WEAVIATE_URL remote q h =
  (settled (graphql_endpoint remote h graphql q), h ++ [PostGraphql graphql q]).
Proof.
  unfold executeQuery. rewrite try_catch_rethrow.
  unfold bind, fetch_graphql, settled. fold graphql.
  destruct (graphql_endpoint remote h graphql q) as [e | r]; [reflexivity |].
  destruct (ok r); reflexivity.
Qed.

Lemma executeAggregateQuery_run (q : string) (h : History) :
  executeAggregateQuery WEAVIATE_URL remote q h =
  (settled (graphql_endpoint remote h graphql q), h ++ [PostGraphql graphql q]).
Proof. exact (executeQuery_run q h). Qed.

Lemma getObjectCount_run (className : string) (h : History) :
  getObjectCount WEAVIATE_URL remote className h =
  (count_of className
     (settled (graphql_endpoint remote h graphql (aggregateQuery className))),
   h ++ [PostGraphql graphql (aggregateQuery className)]).
Proof.
  unfold getObjectCount, bind, attempt.
  rewrite executeAggregateQuery_run. unfold count_of.
  destruct (settled _) as [e | body]; [reflexivity |].
  unfold lift. destruct (aggregateData body className); reflexivity.
Qed.

Lemma aggregate_typed_inv (body : JSON) :
  aggregate_typed body = true ->
  body = JNull \/
  exists data Aggregate,
    Json.member body "data" = Some data /\ data <> JNull /\
    Json.member data "Aggregate" = Some Aggregate /\ Aggregate <> JNull.
Proof.
  intros H. destruct body; [left; reflexivity | right ..];
    unfold aggregate_typed in H;
    destruct (Json.member _ "data") as [data |]; try discriminate;
    apply andb_prop in H as [Hdata Hagg];
    destruct (Json.member data "Aggregate") as [Aggregate |] eqn:E;
    try discriminate;
    exists data, Aggregate; repeat split; try assumption;
    intros ->; discriminate.
Qed.

Lemma aggregateData_typed (body : JSON) (className : string) :
  aggregate_typed body = true ->
  exists data, aggregateData body className = inr data.
Proof.
  intros H. destruct (aggregate_typed_inv body H)
    as [-> | (data & Aggregate & Hdata & Hnn & Hagg & Hann)].
  - eexists; reflexivity.
  - unfold aggregateData. rewrite Hdata.
    replace (Json.nullish (Some body)) with false
      by (destruct body; try reflexivity; discriminate).
    unfold Json.get.
    destruct data; try contradiction; rewrite Hagg;
      destruct Aggregate; try contradiction; eexists; reflexivity.
Qed.


(** The loop against the counts fetched one after another. *)
Lemma collect_run (cs : list WeaviateClass) :
  forall (result : list CollectionInfo) (h : History),
    collect WEAVIATE_URL remote cs result h =
    match fetched_counts WEAVIATE_URL remote (map class cs) h with
    | (inl e, h') => (inl e, h')
    | (inr counts, h') =>
        (inr (result ++ map (fun cn => collectionInfo_of (fst cn) (snd cn))
                            (combine cs counts)), h')
    end.
Proof.
  induction cs as [| c cs IH]; intros result h; simpl.
  - unfold ret. rewrite app_nil_r. reflexivity.
  - unfold bind at 1 2.
    destruct (getObjectCount WEAVIATE_URL remote (class c) h) as [[e | n] h1];
      [reflexivity |].
    rewrite IH. unfold bind.
    destruct (fetched_counts WEAVIATE_URL remote (map class cs) h1) as [[e | ns] h2];
      [reflexivity |].
    unfold ret. simpl. rewrite <- app_assoc. reflexivity.
Qed.

Lemma fetched_counts_length (names : list string) :
  forall h counts h',
    fetched_counts WEAVIATE_URL remote names h = (inr counts, h') ->
    length counts = length names.
Proof.
  induction names as [| n names IH]; simpl; intros h counts h'.
  - unfold ret. intros [= <- _]. reflexivity.
  - unfold bind.
    destruct (getObjectCount WEAVIATE_URL remote n h) as [[e | c] h1];
      [discriminate |].
    destruct (fetched_counts WEAVIATE_URL remote names h1) as [[e | cs] h2] eqn:E;
      [discriminate |].
    unfold ret. intros [= <- _]. simpl. f_equal. exact (IH _ _ _ E).
Qed.


(** [getCollections] once the schema has arrived. *)
Lemma getCollections_run (h : History) (response : Response WeaviateSchemaResponse)
    (schema : WeaviateSchemaResponse) :
  schema_endpoint remote h (WEAVIATE_URL ++ "/v1/schema") = Resolved response ->
  ok response = true ->
  json response = inr schema ->
  getCollections WEAVIATE_URL remote h =
  collect WEAVIATE_URL remote (declared schema) []
    (h ++ [GetSchema (WEAVIATE_URL ++ "/v1/schema")]).
Proof.
  intros Hfetch Hok Hjson. unfold getCollections.
  rewrite try_catch_rethrow. unfold bind at 1, fetch_schema.
  rewrite Hfetch, Hok. simpl. unfold bind, lift. rewrite Hjson. reflexivity.
Qed.

End Layer.


(** ** The claims about the catalog *)

Section Catalog.

Variable WEAVIATE_URL : string.
Variable remote : Remote.

Let graphql : string := WEAVIATE_URL ++ "/v1/graphql".
Let schema_url : string := WEAVIATE_URL ++ "/v1/schema".







(** C4. When the schema fetch resolves with a status outside 200-299,
    [getCollections] throws an error whose message carries the status text;
    the schema request is the only one sent, so no aggregate query is
    issued, and no entry is returned. *)
Theorem schema_failure_throws :
  forall (h : History) (response : Response WeaviateSchemaResponse),
    schema_endpoint remote h schema_url = Resolved response ->
    ok response = false ->
    getCollections WEAVIATE_URL remote h =
    (inl (Error ("Failed to fetch schema: " ++ statusText response)),
     h ++ [GetSchema schema_url]).
Proof.
  intros h response Hfetch Hok. unfold getCollections.
  rewrite try_catch_rethrow. unfold bind, fetch_schema. fold schema_url.
  rewrite Hfetch, Hok. reflexivity.
Qed.

End Catalog.

(** ** The claims about the reader *)

Lemma lookup_array (k : string) (members : list (string * JSON)) (v : JSON) :
  forallb (fun kv => Json.is_array (snd kv)) members = true ->
  Json.lookup k members = Some v ->
  Json.is_array v = true.
Proof.
  induction members as [| [k' v'] rest IH]; simpl; [discriminate |].
  intros Hall Hlook. apply andb_prop in Hall as [Hv Hrest].
  destruct (String.eqb k k'); [injection Hlook as <-; exact Hv | exact (IH Hrest Hlook)].
Qed.

Section Reader.

Variable WEAVIATE_URL : string.
Variable remote : Remote.

Let graphql : string := WEAVIATE_URL ++ "/v1/graphql".

(** [getCollectionData] on what [executeQuery] returned. *)
Lemma getCollectionData_run (className : string) (properties : list PropertyArg)
    (h : History) :
  getCollectionData WEAVIATE_URL remote className properties h =
  match executeQuery WEAVIATE_URL remote (getQuery className properties) h with
  | (inl e, h') => (inl e, h')
  | (inr response, h') =>
      if Json.truthy (Json.opt (Json.opt (Some response) "data") "Get")
      then (rows_of response className, h')
      else (inl (Error "Invalid response structure from Weaviate"), h')
  end.
Proof.
  unfold getCollectionData. rewrite try_catch_rethrow. unfold bind at 1.
  destruct (executeQuery _ _ _ h) as [[e | response] h']; [reflexivity |].
  destruct (Json.truthy _); [| reflexivity].
  cbv beta iota. unfold bind, lift, ret, rows_of.
  destruct (Json.get (Some response) "data") as [e | data]; [reflexivity |].
  destruct (Json.get data "Get") as [e | Get]; [reflexivity |].
  destruct (Json.index Get className); reflexivity.
Qed.

(** Every call of [getCollectionData] sends a request. *)
Lemma getCollectionData_sends (className : string) (properties : list PropertyArg)
    (h : History) :
  snd (getCollectionData WEAVIATE_URL remote className properties h) =
  h ++ [PostGraphql graphql (getQuery className properties)].
Proof.
  rewrite getCollectionData_run, executeQuery_run. fold graphql.
  destruct (settled _) as [e | response]; [reflexivity |].
  destruct (Json.truthy _); reflexivity.
Qed.

(** C5. When the response that [executeQuery] returned lacks the [data.Get]
    envelope (the response, its [data], or the [Get] of its [data] is
    missing), [getCollectionData] throws 'Invalid response structure from
    Weaviate' and returns no sequence. *)
Theorem missing_envelope_throws :
  forall (className : string) (properties : list PropertyArg)
         (h h' : History) (response : JSON),
    executeQuery WEAVIATE_URL remote (getQuery className properties) h
      = (inr response, h') ->
    lacks_envelope response = true ->
    getCollectionData WEAVIATE_URL remote className properties h =
    (inl (Error "Invalid response structure from Weaviate"), h').
Proof.
  intros className properties h h' response Hrun Hlacks.
  rewrite getCollectionData_run, Hrun.
  replace (Json.truthy (Json.opt (Json.opt (Some response) "data") "Get"))
    with false; [reflexivity |].
  unfold lacks_envelope in Hlacks.
  destruct response; try reflexivity; simpl in *;
    match goal with
    | |- false = Json.truthy (Json.opt ?d "Get") =>
        destruct d as [[| | | | |] |]; try reflexivity; simpl in *;
        match type of Hlacks with
        | Json.nullish ?g = true =>
            destruct g as [[| | | | |] |]; try discriminate; reflexivity
        end
    end.
Qed.

(** The rows read from an envelope of the declared shape, for a class name
    that [Object.prototype] does not supply. *)
Lemma rows_of_well_formed (response : JSON) (Get : list (string * JSON))
    (className : string) :
  well_formed response = Some Get ->
  Json.inherited KObject className = false ->
  Json.truthy (Json.opt (Json.opt (Some response) "data") "Get") = true /\
  rows_of response className =
  inr (Doc (match Json.lookup className Get with
            | Some rows => rows
            | None => JArr []
            end)).
Proof.
  intros Hwf Hplain. unfold well_formed in Hwf.
  destruct response as [| | | | | members]; try discriminate.
  unfold rows_of. cbn [Json.opt Json.member Json.get].
  destruct (Json.lookup "data" members) as [[| | | | | data] |]; try discriminate.
  cbn [Json.opt Json.member Json.get].
  destruct (Json.lookup "Get" data) as [[| | | | | Get'] |]; try discriminate.
  destruct (forallb _ Get') eqn:Harrays; [| discriminate].
  injection Hwf as <-. split; [reflexivity |].
  cbn [Json.index]. unfold Json.read. cbn [Json.member Json.kind_of].
  destruct (Json.lookup className Get') as [rows |] eqn:Hrows.
  - pose proof (lookup_array _ _ _ Harrays Hrows) as Harr.
    destruct rows; try discriminate. reflexivity.
  - unfold Json.inherited in Hplain.
    destruct (Json.inherited_from KObject className); [discriminate | reflexivity].
Qed.


End Reader.

(** ** The claims about the route *)

(** A string lacks the separator, or has a last occurrence of it. *)
Lemma last_separator (sep : ascii) (s : string) :
  Js.lacks sep s = true \/
  exists before segment : string,
    s = (before ++ String sep segment)%string /\ Js.lacks sep segment = true.
Proof.
  induction s as [| c rest [Hlacks | (before & segment & -> & Hseg)]].
  - left; reflexivity.
  - simpl. destruct (Ascii.eqb c sep) eqn:E.
    + right. exists EmptyString, rest. apply Ascii.eqb_eq in E as ->.
      split; [reflexivity | exact Hlacks].
    + left. rewrite Hlacks. reflexivity.
  - right. exists (String c before), segment. split; [reflexivity | exact Hseg].
Qed.

(** The extracted name is empty exactly for the empty string and for a
    string that ends with the separator. *)
Lemma pop_split_empty (sep : ascii) (s : string) :
  Js.pop (Js.split sep s) = Some EmptyString <->
  s = EmptyString \/
  exists before : string, s = (before ++ String sep EmptyString)%string.
Proof.
  split.
  - intros Hpop. destruct (last_separator sep s)
      as [Hlacks | (before & segment & -> & Hseg)].
    + rewrite (split_lacks _ _ Hlacks) in Hpop. injection Hpop as ->.
      left; reflexivity.
    + rewrite (pop_split_app_sep _ _ _ Hseg) in Hpop. injection Hpop as ->.
      right. exists before. reflexivity.
  - intros [-> | (before & ->)]; [reflexivity |].
    apply pop_split_app_sep. reflexivity.
Qed.

Lemma find_absent (wanted : string) (collections : list CollectionInfo) :
  ~ In wanted (map name collections) ->
  find (named wanted) collections = None.
Proof.
  induction collections as [| c rest IH]; simpl; intros Hnot; [reflexivity |].
  unfold named at 1. destruct (String.eqb_spec (name c) wanted) as [Heq | Hne].
  - exfalso. apply Hnot. left. exact Heq.
  - apply IH. intros Hin. apply Hnot. right. exact Hin.
Qed.

Lemma snoc_neq {A : Type} (l : list A) (x : A) : l ++ [x] <> l.
Proof.
  intros H. apply (f_equal (@length A)) in H.
  rewrite length_app in H. simpl in H. lia.
Qed.

Section Route.

Variable WEAVIATE_URL : string.
Variable remote : Remote.
Variable new_URL : string -> JsError + URL.

Let graphql : string := WEAVIATE_URL ++ "/v1/graphql".

Lemma GET_calling_run (reader : string -> list PropertyArg -> M Value)
    (request : NextRequest) (u : URL) (h : History) :
  new_URL (url request) = inr u ->
  GET_calling WEAVIATE_URL remote new_URL reader request h =
  GET_calling_of_pathname WEAVIATE_URL remote reader (pathname u) h.
Proof.
  intros Hurl. unfold GET_calling, GET_calling_of_pathname, try_catch, bind at 1, lift.
  rewrite Hurl. cbv beta iota zeta.
  destruct (Js.pop (Js.split "/" (pathname u))) as [wanted |]; [| reflexivity].
  destruct (Js.nonempty wanted); [| reflexivity]. cbv beta iota delta [negb].
  unfold bind at 1.
  destruct (getCollections WEAVIATE_URL remote h) as [[e | collections] h1];
    [reflexivity |].
  destruct (find (named wanted) collections) as [collectionInfo |]; [| reflexivity].
  unfold bind, surplus, ret.
  destruct (reader _ _ h1) as [[e | data] h2]; reflexivity.
Qed.

Lemma GET_run (request : NextRequest) (u : URL) (h : History) :
  new_URL (url request) = inr u ->
  GET WEAVIATE_URL remote new_URL request h =
  GET_of_pathname WEAVIATE_URL remote (pathname u) h.
Proof.
  intros Hurl. unfold GET.
  rewrite (GET_calling_run _ request u h Hurl). reflexivity.
Qed.

Lemma DELETE_run (request : NextRequest) (h : History) :
  DELETE remote request h =
  match Js.pop (Js.split "/" (url request)) with
  | Some wanted =>
      if Js.nonempty wanted then
        match delete_class remote h wanted with
        | Some e =>
            (inr (failure_reply "Failed to delete collection" e),
             h ++ [DeleteClass wanted])
        | None =>
            (inr {| reply_status := 200;
                    reply_body := JObj [("success", JBool true)] |},
             h ++ [DeleteClass wanted])
        end
      else (inr name_required, h)
  | None => (inr name_required, h)
  end.
Proof.
  unfold DELETE, try_catch.
  destruct (Js.pop (Js.split "/" (url request))) as [wanted |]; [| reflexivity].
  destruct (Js.nonempty wanted); [| reflexivity]. cbv beta iota delta [negb].
  unfold bind, deleteCollection.
  destruct (delete_class remote h wanted); reflexivity.
Qed.

(** C3. Two GET requests whose URLs have the same pathname and any query
    parameters, [sortProperty] and [sortOrder] among them or not, get the
    same reply and leave the same history of requests, hence the same
    GraphQL query strings; and the call of [getCollectionData] is the same
    whatever sort directive is passed as its third argument. *)
Theorem sort_parameters_ignored :
  (forall (r1 r2 : NextRequest) (u1 u2 : URL) (h : History),
     new_URL (url r1) = inr u1 ->
     new_URL (url r2) = inr u2 ->
     pathname u1 = pathname u2 ->
     GET WEAVIATE_URL remote new_URL r1 h = GET WEAVIATE_URL remote new_URL r2 h)
  /\
  (forall (className : string) (properties : list PropertyArg)
          (s1 s2 : option SortDirective),
     surplus (getCollectionData WEAVIATE_URL remote className properties) s1 =
     surplus (getCollectionData WEAVIATE_URL remote className properties) s2).
Proof.
  split.
  - intros r1 r2 u1 u2 h H1 H2 Hpath.
    rewrite (GET_run r1 u1 h H1), (GET_run r2 u2 h H2), Hpath. reflexivity.
  - reflexivity.
Qed.

(** C7. A GET request whose collection name is not among the names that
    [getCollections] returned is answered 404 with
    [{error: "Collection not found"}]; the history is the one
    [getCollections] left, whereas a call of [getCollectionData] always
    extends the history: it is not called. *)
Theorem unknown_collection_not_found :
  forall (request : NextRequest) (u : URL) (wanted : string)
         (collections : list CollectionInfo) (h h1 : History),
    new_URL (url request) = inr u ->
    Js.pop (Js.split "/" (pathname u)) = Some wanted ->
    wanted <> EmptyString ->
    getCollections WEAVIATE_URL remote h = (inr collections, h1) ->
    ~ In wanted (map name collections) ->
    GET WEAVIATE_URL remote new_URL request h =
      (inr {| reply_status := 404;
              reply_body := JObj [("error", JStr "Collection not found")] |}, h1)
    /\
    forall className properties,
      snd (getCollectionData WEAVIATE_URL remote className properties h1) <> h1.
Proof.
  intros request u wanted collections h h1 Hurl Hname Hne Hcat Habsent. split.
  - rewrite (GET_run request u h Hurl). unfold GET_of_pathname.
    rewrite Hname, (nonempty_true _ Hne), Hcat, (find_absent _ _ Habsent).
    reflexivity.
  - intros className properties. rewrite getCollectionData_sends. apply snoc_neq.
Qed.

(** C8. A DELETE request from whose URL the extracted name is empty, which
    is the case exactly when the URL ends with '/' (or is empty), is
    answered 400 with an error body, and the history is unchanged: no class
    deletion is requested. *)
Theorem DELETE_without_name :
  (forall (request : NextRequest) (h : History),
     Js.pop (Js.split "/" (url request)) = Some EmptyString ->
     DELETE remote request h =
       (inr {| reply_status := 400;
               reply_body := JObj [("error", JStr "Collection name is required")] |},
        h))
  /\
  (forall (request : NextRequest),
     Js.pop (Js.split "/" (url request)) = Some EmptyString <->
     url request = EmptyString \/
     exists before : string, url request = (before ++ "/")%string)
  /\
  (forall (name : string) (h : History),
     snd (deleteCollection remote name h) <> h).
Proof.
  split; [| split].
  - intros request h Hname. rewrite DELETE_run, Hname. reflexivity.
  - intros request. apply pop_split_empty.
  - intros name h. unfold deleteCollection.
    destruct (delete_class remote h name); apply snoc_neq.
Qed.

(** C9. Every entry of the [properties] of every [CollectionInfo] that
    [getCollections] returns has neither [description] nor [dataType],
    whatever the schema carries for the property; so, when the GET handler
    finds the collection, what it does is call the function it imported as
    [getCollectionData] with the collection name and, for every property,
    its name and the [dataType] ['string'], whatever that function does
    with them; and [GET] is that body with [getCollectionData]. *)
Theorem properties_carry_name_only :
  (forall (h h1 : History) (collections : list CollectionInfo)
          (info : CollectionInfo) (p : PropertyInfo),
     getCollections WEAVIATE_URL remote h = (inr collections, h1) ->
     In info collections ->
     In p (properties info) ->
     prop_description p = None /\ prop_dataType p = None)
  /\
  (forall (reader : string -> list PropertyArg -> M Value)
          (request : NextRequest) (u : URL) (wanted : string)
          (collections : list CollectionInfo) (info : CollectionInfo)
          (h h1 : History),
     new_URL (url request) = inr u ->
     Js.pop (Js.split "/" (pathname u)) = Some wanted ->
     wanted <> EmptyString ->
     getCollections WEAVIATE_URL remote h = (inr collections, h1) ->
     find (named wanted) collections = Some info ->
     GET_calling WEAVIATE_URL remote new_URL reader request h =
     match reader wanted
             (map (fun p => {| arg_name := prop_name p;
                               arg_dataType := ["string"] |})
                  (properties info)) h1 with
     | (inl e, h2) => (inr (failure_reply "Failed to fetch data" e), h2)
     | (inr data, h2) => (inr (rows_reply data), h2)
     end)
  /\
  (forall (request : NextRequest) (h : History),
     GET WEAVIATE_URL remote new_URL request h =
     GET_calling WEAVIATE_URL remote new_URL
       (getCollectionData WEAVIATE_URL remote) request h).
Proof.
  assert (Bare : forall h h1 collections info p,
    getCollections WEAVIATE_URL remote h = (inr collections, h1) ->
    In info collections ->
    In p (properties info) ->
    prop_description p = None /\ prop_dataType p = None).
  { intros h h1 collections info p Hcat Hinfo Hp.
    unfold getCollections in Hcat. rewrite try_catch_rethrow in Hcat.
    unfold bind at 1 in Hcat.
    destruct (fetch_schema remote _ h) as [[e | response] h0]; [discriminate |].
    destruct (ok response); [| discriminate]. simpl in Hcat.
    unfold bind, lift in Hcat.
    destruct (json response) as [e | schema]; [discriminate |].
    rewrite collect_run in Hcat.
    destruct (fetched_counts _ _ _ h0) as [[e | counts] h2]; [discriminate |].
    injection Hcat as <- _. simpl in Hinfo.
    apply in_map_iff in Hinfo as ([c n] & <- & _). simpl in Hp.
    destruct (wc_properties c) as [ps |]; [| destruct Hp].
    apply in_map_iff in Hp as (sp & <- & _). split; reflexivity. }
  split; [exact Bare | split; [| reflexivity]].
  intros reader request u wanted collections info h h1 Hurl Hname Hne Hcat Hfind.
  rewrite (GET_calling_run reader request u h Hurl). unfold GET_calling_of_pathname.
  rewrite Hname, (nonempty_true _ Hne), Hcat, Hfind.
  replace (propertyArguments info)
    with (map (fun p => {| arg_name := prop_name p; arg_dataType := ["string"] |})
              (properties info)); [reflexivity |].
  unfold propertyArguments. apply map_ext_in. intros p Hp.
  apply find_some in Hfind as [Hinfo _].
  destruct (Bare h h1 collections info p Hcat Hinfo Hp) as [_ ->]. reflexivity.
Qed.

End Route.

(** ** The name the DELETE handler extracts *)

Section Names.

Variable WEAVIATE_URL : string.
Variable remote : Remote.
Variable new_URL : string -> JsError + URL.

Let graphql : string := WEAVIATE_URL ++ "/v1/graphql".

(** C10, as amended.  The DELETE handler splits the whole request URL: when
    the URL ends with a path segment, '?' and a query string, neither
    containing '/', the class whose deletion is requested is named by the
    segment followed by '?' and the query string.  The GET handler splits
    the pathname of the parsed URL: when the pathname ends with the segment
    and the catalog has a collection of that name, the query it sends is the
    Get query for the segment. *)
Theorem DELETE_name_keeps_query :
  (forall (request : NextRequest) (before segment query : string) (h : History),
     url request = (before ++ "/" ++ segment ++ "?" ++ query)%string ->
     Js.lacks "/" segment = true ->
     Js.lacks "/" query = true ->
     snd (DELETE remote request h) =
     h ++ [DeleteClass (segment ++ "?" ++ query)%string])
  /\
  (forall (request : NextRequest) (u : URL) (before segment : string)
          (collections : list CollectionInfo) (info : CollectionInfo)
          (h h1 : History),
     new_URL (url request) = inr u ->
     pathname u = (before ++ "/" ++ segment)%string ->
     Js.lacks "/" segment = true ->
     segment <> EmptyString ->
     getCollections WEAVIATE_URL remote h = (inr collections, h1) ->
     find (named segment) collections = Some info ->
     snd (GET WEAVIATE_URL remote new_URL request h) =
     h1 ++ [PostGraphql graphql (getQuery segment (propertyArguments info))]).
Proof.
  split.
  - intros request before segment query h Hurl Hseg Hquery.
    rewrite DELETE_run, Hurl.
    change (before ++ "/" ++ segment ++ "?" ++ query)%string
      with (before ++ String "/" (segment ++ "?" ++ query))%string.
    rewrite pop_split_app_sep
      by (rewrite lacks_app, Hseg; simpl; exact Hquery).
    destruct segment; simpl; destruct (delete_class remote h _); reflexivity.
  - intros request u before segment collections info h h1
      Hurl Hpath Hseg Hne Hcat Hfind.
    rewrite (GET_run _ _ _ request u h Hurl). unfold GET_of_pathname.
    rewrite Hpath.
    change (before ++ "/" ++ segment)%string
      with (before ++ String "/" segment)%string.
    rewrite (pop_split_app_sep _ _ _ Hseg), (nonempty_true _ Hne), Hcat, Hfind.
    pose proof (getCollectionData_sends WEAVIATE_URL remote segment
                  (propertyArguments info) h1) as Hsend.
    destruct (getCollectionData _ _ _ _ h1) as [[e | data] h2]; exact Hsend.
Qed.

End Names.

(** * The model at work *)

Module Runs.

Import Platform.

(** A 200 answer without [data] is beyond what [getObjectCount] masks: the
    access to [.Aggregate] throws, and so does [getCollections]. *)
Example errors_only_throws :
  fst (getCollections base errors_only []) =
  inl (TypeError "Cannot read properties of undefined (reading 'Aggregate')").
Proof. reflexivity. Qed.

Example healthy_catalog :
  getCollections base healthy [] = (inr catalog, after_catalog).
Proof. reflexivity. Qed.

Example sorted_request_rows :
  GET base healthy new_URL
    {| url := "http://localhost:3000/api/collection/Article?sortProperty=title&sortOrder=desc" |}
    [] =
  (inr (rows_reply (Doc article_rows)),
   after_catalog ++
   [PostGraphql "http://localhost:8080/v1/graphql" (getQuery "Article" [title])]).
Proof. reflexivity. Qed.

End Runs.

(** The claim C10 as it is stated fails: a query string with a '/' in it is
    cut as well, and the name passed on is what follows its last '/'. *)
Lemma DELETE_name_from_query_tail :
  ~ (forall (remote : Remote) (request : NextRequest) (before query : string)
            (h : History),
       url request = (before ++ "?" ++ query)%string ->
       exists passed : string,
         snd (DELETE remote request h) = h ++ [DeleteClass passed] /\
         Js.includes passed query = true).
Proof.
  intros Claim.
  destruct (Claim Platform.healthy
              {| url := "http://localhost:3000/api/collection/Foo?x=a/b" |}
              "http://localhost:3000/api/collection/Foo" "x=a/b" [] eq_refl)
    as (passed & Hsent & Hincludes).
  vm_compute in Hsent. injection Hsent as <-.
  vm_compute in Hincludes. discriminate Hincludes.
Qed.

(** ** The theorems at concrete requests *)




(** C4 at a database whose schema endpoint answers 503. *)
Lemma schema_failure_throws_witness :
  getCollections Platform.base Platform.schema_down [] =
  (inl (Error "Failed to fetch schema: Service Unavailable"),
   [GetSchema "http://localhost:8080/v1/schema"]).
Proof.
  apply (schema_failure_throws Platform.base Platform.schema_down []
           {| status := 503; statusText := "Service Unavailable";
              json := inl (mkError "SyntaxError" "Unexpected end of JSON input") |}).
  - reflexivity.
  - reflexivity.
Defined.

(** C5 at a GraphQL endpoint that answers [{ "errors": [] }]. *)
Lemma missing_envelope_throws_witness :
  getCollectionData Platform.base Platform.errors_only "Article" [Platform.title] [] =
  (inl (Error "Invalid response structure from Weaviate"),
   [PostGraphql "http://localhost:8080/v1/graphql"
      (getQuery "Article" [Platform.title])]).
Proof.
  apply (missing_envelope_throws Platform.base Platform.errors_only
           "Article" [Platform.title] [] _ (JObj [("errors", JArr [])])).
  - reflexivity.
  - reflexivity.
Defined.



(** C3 at a request that asks for a descending sort and one that asks for
    none. *)
Lemma sort_parameters_ignored_witness :
  GET Platform.base Platform.healthy Platform.new_URL
    {| url := "http://localhost:3000/api/collection/Article?sortProperty=title&sortOrder=desc" |}
    [] =
  GET Platform.base Platform.healthy Platform.new_URL
    {| url := "http://localhost:3000/api/collection/Article" |} [].
Proof.
  apply (proj1 (sort_parameters_ignored Platform.base Platform.healthy Platform.new_URL)
           _ _
           {| pathname := "/api/collection/Article";
              searchParams := [("sortProperty", "title"); ("sortOrder", "desc")] |}
           {| pathname := "/api/collection/Article"; searchParams := [] |}).
  - reflexivity.
  - reflexivity.
  - reflexivity.
Defined.

(** C7 at a request for a collection the database does not hold. *)
Lemma unknown_collection_not_found_witness :
  GET Platform.base Platform.healthy Platform.new_URL
    {| url := "http://localhost:3000/api/collection/Nope" |} [] =
  (inr {| reply_status := 404;
          reply_body := JObj [("error", JStr "Collection not found")] |},
   Platform.after_catalog).
Proof.
  apply (unknown_collection_not_found Platform.base Platform.healthy Platform.new_URL
           {| url := "http://localhost:3000/api/collection/Nope" |}
           {| pathname := "/api/collection/Nope"; searchParams := [] |}
           "Nope" Platform.catalog [] Platform.after_catalog).
  - reflexivity.
  - reflexivity.
  - discriminate.
  - reflexivity.
  - simpl. intros [H | []]. discriminate H.
Defined.

(** C8 at [DELETE /api/collection/]. *)
Lemma DELETE_without_name_witness :
  DELETE Platform.healthy {| url := "http://localhost:3000/api/collection/" |} [] =
  (inr {| reply_status := 400;
          reply_body := JObj [("error", JStr "Collection name is required")] |},
   []).
Proof.
  apply (proj1 (DELETE_without_name Platform.healthy)
           {| url := "http://localhost:3000/api/collection/" |} []).
  reflexivity.
Defined.

(** C9 at the database whose schema declares a [dataType] for [title],
    with a reader that returns the [dataType] lists it is called with. *)
Lemma properties_carry_name_only_witness :
  (forall info p, In info Platform.catalog -> In p (properties info) ->
     prop_description p = None /\ prop_dataType p = None)
  /\
  GET_calling Platform.base Platform.healthy Platform.new_URL Fixtures.echo_dataTypes
    {| url := "http://localhost:3000/api/collection/Article" |} [] =
  (inr {| reply_status := 200;
          reply_body := JObj [("data", JArr [JArr [JStr "string"]])] |},
   Platform.after_catalog).
Proof.
  split.
  - intros info p.
    apply (proj1 (properties_carry_name_only Platform.base Platform.healthy
                    Platform.new_URL) [] Platform.after_catalog Platform.catalog info p).
    reflexivity.
  - apply (proj1 (proj2 (properties_carry_name_only Platform.base Platform.healthy
                    Platform.new_URL))
             Fixtures.echo_dataTypes
             {| url := "http://localhost:3000/api/collection/Article" |}
             {| pathname := "/api/collection/Article"; searchParams := [] |}
             "Article" Platform.catalog
             {| name := "Article";
                description := Some "News articles";
                count := JNum 1;
                properties := [ {| prop_name := "title";
                                   prop_description := None;
                                   prop_dataType := None |} ] |}
             [] Platform.after_catalog).
    + reflexivity.
    + reflexivity.
    + discriminate.
    + reflexivity.
    + reflexivity.
Defined.

(** C10, as amended, at [/api/collection/Foo?x=1]. *)
Lemma DELETE_name_keeps_query_witness :
  snd (DELETE Platform.healthy
         {| url := "http://localhost:3000/api/collection/Foo?x=1" |} []) =
  [DeleteClass "Foo?x=1"]
  /\
  snd (GET Platform.base Platform.healthy Platform.new_URL
         {| url := "http://localhost:3000/api/collection/Article?x=1" |} []) =
  Platform.after_catalog ++
  [PostGraphql "http://localhost:8080/v1/graphql"
     (getQuery "Article" [Platform.title])].
Proof.
  split.
  - apply (proj1 (DELETE_name_keeps_query Platform.base Platform.healthy
                    Platform.new_URL)
             {| url := "http://localhost:3000/api/collection/Foo?x=1" |}
             "http://localhost:3000/api/collection" "Foo" "x=1" []).
    + reflexivity.
    + reflexivity.
    + reflexivity.
  - apply (proj2 (DELETE_name_keeps_query Platform.base Platform.healthy
                    Platform.new_URL)
             {| url := "http://localhost:3000/api/collection/Article?x=1" |}
             {| pathname := "/api/collection/Article";
                searchParams := [("x", "1")] |}
             "/api/collection" "Article" Platform.catalog
             {| name := "Article";
                description := Some "News articles";
                count := JNum 1;
                properties := [ {| prop_name := "title";
                                   prop_description := None;
                                   prop_dataType := None |} ] |}
             [] Platform.after_catalog).
    + reflexivity.
    + reflexivity.
    + reflexivity.
    + discriminate.
    + reflexivity.
    + reflexivity.
Defined.

(** * Further properties of the data-access layer *)

Lemma or_empty_not_falsy (v : option Value) : ~ falsy (Json.or_empty v).
Proof.
  unfold falsy, Json.or_empty. destruct v as [[j | n] |].
  - destruct j as [| [|] | z | [| c s] | |]; cbn;
      try (intros [H | [H | [H | H]]]; discriminate H).
    destruct (Z.eqb_spec z 0) as [-> | Hz]; cbn;
      intros [H | [H | [H | H]]]; try discriminate H.
    injection H as ->. contradiction.
  - cbn. intros [H | [H | [H | H]]]; discriminate H.
  - intros [H | [H | [H | H]]]; discriminate H.
Qed.

Lemma aggregateData_untyped (body : JSON) (className : string) :
  aggregate_typed body = false ->
  exists e, aggregateData body className = inl e /\ err_name e = "TypeError".
Proof.
  unfold aggregate_typed, aggregateData. intros H.
  destruct body; try discriminate;
    (destruct (Json.member _ "data") as [data |] eqn:Hd;
     [| eexists; split; reflexivity]);
    cbn [Json.nullish];
    (destruct data;
     [eexists; split; reflexivity | ..]);
    cbn [Json.get Json.nullish negb andb] in *;
    (destruct (Json.member _ "Aggregate") as [[| | | | |] |];
     try discriminate; eexists; split; reflexivity).
Qed.

Section MoreLayer.

Variable WEAVIATE_URL : string.
Variable remote : Remote.

Let graphql : string := WEAVIATE_URL ++ "/v1/graphql".
Let schema_url : string := WEAVIATE_URL ++ "/v1/schema".

(** X1. [executeQuery] sends exactly one POST to /v1/graphql carrying the
    query; on a status outside 200-299 it throws 'Query failed: ' followed
    by the status text; a body is returned only from a 2xx response whose
    body parsed. *)
Theorem executeQuery_outcome :
  forall (q : string) (h : History),
    snd (executeQuery WEAVIATE_URL remote q h) = h ++ [PostGraphql graphql q] /\
    (forall r,
       graphql_endpoint remote h graphql q = Resolved r ->
       ok r = false ->
       fst (executeQuery WEAVIATE_URL remote q h)
         = inl (Error ("Query failed: " ++ statusText r))) /\
    (forall body,
       fst (executeQuery WEAVIATE_URL remote q h) = inr body ->
       exists r,
         graphql_endpoint remote h graphql q = Resolved r /\
         ok r = true /\ json r = inr body).
Proof.
  intros q h. rewrite executeQuery_run. fold graphql. simpl.
  split; [reflexivity | split].
  - intros r -> Hok. simpl. rewrite Hok. reflexivity.
  - intros body Hbody.
    destruct (graphql_endpoint remote h graphql q) as [e | r]; [discriminate |].
    simpl in Hbody. destruct (ok r) eqn:Hok; [| discriminate].
    exists r. repeat split; assumption.
Qed.

Lemma getObjectsByClass_run (className : string) (h : History) :
  getObjectsByClass WEAVIATE_URL remote className h =
  match executeQuery WEAVIATE_URL remote (objectsQuery className) h with
  | (inl e, h') => (inl e, h')
  | (inr response, h') => (rows_of response className, h')
  end.
Proof.
  unfold getObjectsByClass. cbv zeta. unfold bind at 1.
  destruct (executeQuery _ _ _ h) as [[e | response] h']; [reflexivity |].
  unfold bind, lift, ret, rows_of.
  destruct (Json.get (Some response) "data") as [e | data]; [reflexivity |].
  destruct (Json.get data "Get") as [e | Get]; [reflexivity |].
  destruct (Json.index Get className); reflexivity.
Qed.

(** X2. Unlike [getCollectionData], [getObjectsByClass] does not check the
    envelope: when the response that [executeQuery] returned lacks [data.Get]
    (the response, its [data] or the [Get] of its [data] is missing), the
    plain member access throws a TypeError. *)
Theorem getObjectsByClass_missing_envelope :
  forall (className : string) (h h' : History) (response : JSON),
    executeQuery WEAVIATE_URL remote (objectsQuery className) h = (inr response, h') ->
    lacks_envelope response = true ->
    exists e,
      getObjectsByClass WEAVIATE_URL remote className h = (inl e, h') /\
      err_name e = "TypeError".
Proof.
  intros className h h' response Hrun Hlacks.
  rewrite getObjectsByClass_run, Hrun. unfold lacks_envelope in Hlacks.
  unfold rows_of.
  destruct response; try (eexists; split; reflexivity);
    cbn [Json.get];
    (destruct (Json.member _ "data") as [[| | | | |] |];
     try (eexists; split; reflexivity));
    cbn [Json.get];
    (destruct (Json.member _ "Get") as [[| | | | |] |];
     try discriminate; eexists; split; reflexivity).
Qed.

(** X3. On a response for which [getCollectionData] returns rows,
    [getObjectsByClass] for the same class returns the same rows. *)
Theorem getObjectsByClass_agrees :
  forall (className : string) (properties : list PropertyArg)
         (h h' g g' : History) (response : JSON) (rows : Value),
    executeQuery WEAVIATE_URL remote (getQuery className properties) h
      = (inr response, h') ->
    getCollectionData WEAVIATE_URL remote className properties h = (inr rows, h') ->
    executeQuery WEAVIATE_URL remote (objectsQuery className) g = (inr response, g') ->
    getObjectsByClass WEAVIATE_URL remote className g = (inr rows, g').
Proof.
  intros className properties h h' g g' response rows Hrun Hrows Hrun'.
  rewrite getCollectionData_run, Hrun in Hrows.
  rewrite getObjectsByClass_run, Hrun'.
  destruct (Json.truthy _); [| discriminate].
  injection Hrows as Hrows. f_equal. exact Hrows.
Qed.

Lemma rows_of_not_falsy (response : JSON) (className : string) (rows : Value) :
  rows_of response className = inr rows -> ~ falsy rows.
Proof.
  unfold rows_of.
  destruct (Json.get (Some response) "data") as [e | data]; [discriminate |].
  destruct (Json.get data "Get") as [e | Get]; [discriminate |].
  destruct (Json.index Get className) as [e | v]; [discriminate |].
  intros [= <-]. apply or_empty_not_falsy.
Qed.

Lemma rows_of_falsy_member (bm dm gm : list (string * JSON)) (className : string)
    (v : JSON) :
  Json.lookup "data" bm = Some (JObj dm) ->
  Json.lookup "Get" dm = Some (JObj gm) ->
  Json.lookup className gm = Some v ->
  falsy (Doc v) ->
  Json.truthy (Json.opt (Json.opt (Some (JObj bm)) "data") "Get") = true /\
  rows_of (JObj bm) className = inr (Doc (JArr [])).
Proof.
  intros Hd Hg Hv Hfalsy. unfold rows_of.
  cbn [Json.opt Json.get Json.member]. rewrite Hd.
  cbn [Json.opt Json.get Json.member]. rewrite Hg.
  split; [reflexivity |].
  cbn [Json.index]. unfold Json.read. cbn [Json.member]. rewrite Hv.
  destruct Hfalsy as [H | [H | [H | H]]]; injection H as ->; reflexivity.
Qed.

(** X4. [getCollectionData] and [getObjectsByClass] never return [null],
    [false], [0] or [""]; and when the member of [data.Get] for the class is
    one of these, what they return is the empty sequence. *)
Theorem rows_never_falsy :
  (forall className properties h h' rows,
     getCollectionData WEAVIATE_URL remote className properties h = (inr rows, h') ->
     rows <> Doc JNull /\ rows <> Doc (JBool false) /\
     rows <> Doc (JNum 0) /\ rows <> Doc (JStr EmptyString))
  /\
  (forall className h h' rows,
     getObjectsByClass WEAVIATE_URL remote className h = (inr rows, h') ->
     rows <> Doc JNull /\ rows <> Doc (JBool false) /\
     rows <> Doc (JNum 0) /\ rows <> Doc (JStr EmptyString))
  /\
  (forall className properties h h' (bm dm gm : list (string * JSON)) (v : JSON),
     executeQuery WEAVIATE_URL remote (getQuery className properties) h
       = (inr (JObj bm), h') ->
     Json.lookup "data" bm = Some (JObj dm) ->
     Json.lookup "Get" dm = Some (JObj gm) ->
     Json.lookup className gm = Some v ->
     v = JNull \/ v = JBool false \/ v = JNum 0 \/ v = JStr EmptyString ->
     getCollectionData WEAVIATE_URL remote className properties h
       = (inr (Doc (JArr [])), h'))
  /\
  (forall className h h' (bm dm gm : list (string * JSON)) (v : JSON),
     executeQuery WEAVIATE_URL remote (objectsQuery className) h
       = (inr (JObj bm), h') ->
     Json.lookup "data" bm = Some (JObj dm) ->
     Json.lookup "Get" dm = Some (JObj gm) ->
     Json.lookup className gm = Some v ->
     v = JNull \/ v = JBool false \/ v = JNum 0 \/ v = JStr EmptyString ->
     getObjectsByClass WEAVIATE_URL remote className h
       = (inr (Doc (JArr [])), h')).
Proof.
  assert (Split : forall rows, ~ falsy rows ->
    rows <> Doc JNull /\ rows <> Doc (JBool false) /\
    rows <> Doc (JNum 0) /\ rows <> Doc (JStr EmptyString)).
  { unfold falsy. intros rows Hnot.
    repeat split; intros ->; apply Hnot; tauto. }
  assert (Join : forall v : JSON,
    v = JNull \/ v = JBool false \/ v = JNum 0 \/ v = JStr EmptyString ->
    falsy (Doc v)).
  { unfold falsy. intros v [-> | [-> | [-> | ->]]]; tauto. }
  split; [| split; [| split]].
  - intros className properties h h' rows. rewrite getCollectionData_run.
    destruct (executeQuery _ _ _ h) as [[e | response] h0]; [discriminate |].
    destruct (Json.truthy _); [| discriminate].
    intros [= Hrows _]. apply Split. exact (rows_of_not_falsy _ _ _ Hrows).
  - intros className h h' rows. rewrite getObjectsByClass_run.
    destruct (executeQuery _ _ _ h) as [[e | response] h0]; [discriminate |].
    intros [= Hrows _]. apply Split. exact (rows_of_not_falsy _ _ _ Hrows).
  - intros className properties h h' bm dm gm v Hrun Hd Hg Hv Hfalsy.
    rewrite getCollectionData_run, Hrun.
    destruct (rows_of_falsy_member bm dm gm className v Hd Hg Hv (Join v Hfalsy))
      as [-> ->].
    reflexivity.
  - intros className h h' bm dm gm v Hrun Hd Hg Hv Hfalsy.
    rewrite getObjectsByClass_run, Hrun.
    destruct (rows_of_falsy_member bm dm gm className v Hd Hg Hv (Join v Hfalsy))
      as [_ ->].
    reflexivity.
Qed.

(** X5. The query and the result of [getCollectionData] depend on the names
    of the properties only: the [dataType] of a property is never read. *)
Theorem dataType_never_read :
  forall (className : string) (properties properties' : list PropertyArg)
         (h : History),
    map arg_name properties = map arg_name properties' ->
    getCollectionData WEAVIATE_URL remote className properties h =
    getCollectionData WEAVIATE_URL remote className properties' h.
Proof.
  intros className properties properties' h Hnames.
  rewrite !getCollectionData_run. unfold getQuery. rewrite Hnames. reflexivity.
Qed.

End MoreLayer.

(** * Further properties of the counts and of the catalog *)

Lemma names_of_entries (cs : list WeaviateClass) :
  forall counts : list JSON,
    length counts = length cs ->
    map name (map (fun cn => collectionInfo_of (fst cn) (snd cn)) (combine cs counts))
    = map class cs.
Proof.
  induction cs as [| c cs IH]; intros [| n counts] Hlen; try discriminate;
    [reflexivity |].
  simpl. f_equal. apply IH. injection Hlen as Hlen. exact Hlen.
Qed.

Section MoreCatalog.

Variable WEAVIATE_URL : string.
Variable remote : Remote.

Let graphql : string := WEAVIATE_URL ++ "/v1/graphql".
Let schema_url : string := WEAVIATE_URL ++ "/v1/schema".

Lemma getObjectCount_of_body (className : string) (h h' : History) (body : JSON) :
  executeAggregateQuery WEAVIATE_URL remote (aggregateQuery className) h
    = (inr body, h') ->
  getObjectCount WEAVIATE_URL remote className h = (count_of className (inr body), h').
Proof.
  intros Hrun. rewrite getObjectCount_run.
  rewrite executeAggregateQuery_run in Hrun. injection Hrun as -> <-. reflexivity.
Qed.

Lemma fetched_counts_requests (names : list string) :
  forall h counts h',
    fetched_counts WEAVIATE_URL remote names h = (inr counts, h') ->
    h' = h ++ map (fun n => PostGraphql graphql (aggregateQuery n)) names.
Proof.
  induction names as [| n names IH]; simpl; intros h counts h'.
  - unfold ret. intros [= _ <-]. rewrite app_nil_r. reflexivity.
  - unfold bind. rewrite getObjectCount_run. fold graphql.
    destruct (count_of n _) as [e | c]; [discriminate |].
    destruct (fetched_counts _ _ names _) as [[e | cs] h2] eqn:E; [discriminate |].
    unfold ret. intros [= _ <-]. rewrite (IH _ _ _ E), <- app_assoc. reflexivity.
Qed.

Lemma aggregateData_of_shape (bm dm am : list (string * JSON)) (className : string) :
  Json.lookup "data" bm = Some (JObj dm) ->
  Json.lookup "Aggregate" dm = Some (JObj am) ->
  aggregateData (JObj bm) className =
  inr (Json.else_empty (Json.read (JObj am) className)).
Proof.
  intros Hd Ha. unfold aggregateData. cbn [Json.nullish Json.member Json.get].
  rewrite Hd. cbn [Json.get Json.member]. rewrite Ha. reflexivity.
Qed.

(** X6. When the aggregate answer has the documented shape, with at least
    one entry for the class and a count in its [meta], [getObjectCount]
    returns the count of the first entry. *)
Theorem getObjectCount_first_entry :
  forall (className : string) (h h' : History)
         (bm dm am em mm : list (string * JSON)) (rest : list JSON) (n : JSON),
    executeAggregateQuery WEAVIATE_URL remote (aggregateQuery className) h
      = (inr (JObj bm), h') ->
    Json.lookup "data" bm = Some (JObj dm) ->
    Json.lookup "Aggregate" dm = Some (JObj am) ->
    Json.lookup className am = Some (JArr (JObj em :: rest)) ->
    Json.lookup "meta" em = Some (JObj mm) ->
    Json.lookup "count" mm = Some n ->
    n <> JNull ->
    getObjectCount WEAVIATE_URL remote className h = (inr n, h').
Proof.
  intros className h h' bm dm am em mm rest n Hrun Hd Ha Hc Hm Hn Hnn.
  rewrite (getObjectCount_of_body _ _ _ _ Hrun).
  unfold count_of. rewrite (aggregateData_of_shape bm dm am className Hd Ha).
  unfold Json.read. cbn [Json.member]. rewrite Hc. cbn. rewrite Hm. cbn. rewrite Hn.
  destruct n; try reflexivity. contradiction.
Qed.

(** X7. [getObjectCount] returns 0 when the aggregate answer is [null],
    when it has no entry for the class (the member is absent, [null] or an
    empty array), and when the first entry has no [meta] or its [meta] has
    no [count]. *)
Theorem getObjectCount_defaults_zero :
  (forall (className : string) (h h' : History),
     executeAggregateQuery WEAVIATE_URL remote (aggregateQuery className) h
       = (inr JNull, h') ->
     getObjectCount WEAVIATE_URL remote className h = (inr (JNum 0), h'))
  /\
  (forall (className : string) (h h' : History) (bm dm am : list (string * JSON)),
     executeAggregateQuery WEAVIATE_URL remote (aggregateQuery className) h
       = (inr (JObj bm), h') ->
     Json.lookup "data" bm = Some (JObj dm) ->
     Json.lookup "Aggregate" dm = Some (JObj am) ->
     Json.lookup className am = None \/
     Json.lookup className am = Some JNull \/
     Json.lookup className am = Some (JArr []) ->
     getObjectCount WEAVIATE_URL remote className h = (inr (JNum 0), h'))
  /\
  (forall (className : string) (h h' : History)
          (bm dm am em : list (string * JSON)) (rest : list JSON),
     executeAggregateQuery WEAVIATE_URL remote (aggregateQuery className) h
       = (inr (JObj bm), h') ->
     Json.lookup "data" bm = Some (JObj dm) ->
     Json.lookup "Aggregate" dm = Some (JObj am) ->
     Json.lookup className am = Some (JArr (JObj em :: rest)) ->
     Json.lookup "meta" em = None \/
     (exists mm, Json.lookup "meta" em = Some (JObj mm) /\
                 Json.lookup "count" mm = None) ->
     getObjectCount WEAVIATE_URL remote className h = (inr (JNum 0), h')).
Proof.
  split; [| split].
  - intros className h h' Hrun.
    rewrite (getObjectCount_of_body _ _ _ _ Hrun). reflexivity.
  - intros className h h' bm dm am Hrun Hd Ha Hc.
    rewrite (getObjectCount_of_body _ _ _ _ Hrun).
    unfold count_of. rewrite (aggregateData_of_shape bm dm am className Hd Ha).
    unfold Json.read. cbn [Json.member Json.kind_of].
    destruct Hc as [-> | [-> | ->]]; try reflexivity.
    destruct (Json.inherited_from KObject className); reflexivity.
  - intros className h h' bm dm am em rest Hrun Hd Ha Hc Hm.
    rewrite (getObjectCount_of_body _ _ _ _ Hrun).
    unfold count_of. rewrite (aggregateData_of_shape bm dm am className Hd Ha).
    unfold Json.read. cbn [Json.member]. rewrite Hc. cbn.
    destruct Hm as [-> | (mm & -> & Hcount)]; [reflexivity |].
    cbn. rewrite Hcount. reflexivity.
Qed.

(** X8. [getObjectCount] throws exactly when the aggregate answer arrives
    and is neither [null] nor a value with a [data.Aggregate]; what it
    throws then is a TypeError.  A failed query never makes it throw. *)
Theorem getObjectCount_throws_iff :
  forall (className : string) (h : History),
    ((exists e, fst (getObjectCount WEAVIATE_URL remote className h) = inl e) <->
     (exists body,
        fst (executeAggregateQuery WEAVIATE_URL remote (aggregateQuery className) h)
          = inr body /\
        aggregate_typed body = false))
    /\
    (forall e, fst (getObjectCount WEAVIATE_URL remote className h) = inl e ->
               err_name e = "TypeError").
Proof.
  intros className h. rewrite getObjectCount_run, executeAggregateQuery_run.
  fold graphql. cbn [fst].
  destruct (settled _) as [e0 | body]; cbn [count_of].
  - split; [split |].
    + intros (e & He). discriminate He.
    + intros (body & Hb & _). discriminate Hb.
    + intros e He. discriminate He.
  - destruct (aggregate_typed body) eqn:Htyped.
    + destruct (aggregateData_typed body className Htyped) as (data & ->).
      split; [split |].
      * intros (e & He). discriminate He.
      * intros (b & [= <-] & Hb). rewrite Htyped in Hb. discriminate Hb.
      * intros e He. discriminate He.
    + destruct (aggregateData_untyped body className Htyped) as (e0 & -> & Hname).
      split; [split |].
      * intros _. exists body. split; [reflexivity | exact Htyped].
      * intros _. exists e0. reflexivity.
      * intros e [= <-]. exact Hname.
Qed.

(** X9. When [getCollections] returns, the requests it sent are the schema
    request followed by one aggregate query per returned entry, in the
    order of the entries; nothing else is sent. *)
Theorem getCollections_requests :
  forall (h h' : History) (result : list CollectionInfo),
    getCollections WEAVIATE_URL remote h = (inr result, h') ->
    h' = h ++ GetSchema schema_url ::
              map (fun info => PostGraphql graphql (aggregateQuery (name info)))
                  result.
Proof.
  intros h h' result Hcat.
  unfold getCollections in Hcat. rewrite try_catch_rethrow in Hcat.
  unfold bind at 1, fetch_schema in Hcat. fold schema_url in Hcat.
  assert (Hrest : forall response,
    (if negb (ok response)
     then throw (Error ("Failed to fetch schema: " ++ statusText response))
     else bind (lift (json response))
            (fun schema => collect WEAVIATE_URL remote (declared schema) []))
      (h ++ [GetSchema schema_url]) = (inr result, h') ->
    h' = h ++ GetSchema schema_url ::
              map (fun info => PostGraphql graphql (aggregateQuery (name info)))
                  result).
  { intros response Hbody. destruct (ok response); [| discriminate]. simpl in Hbody.
    unfold bind, lift in Hbody.
    destruct (json response) as [e | schema]; [discriminate |].
    rewrite collect_run in Hbody.
    destruct (fetched_counts _ _ _ _) as [[e | counts] h2] eqn:E; [discriminate |].
    injection Hbody as <- <-.
    pose proof (fetched_counts_length _ _ _ _ _ _ E) as Hlen.
    rewrite length_map in Hlen.
    rewrite (fetched_counts_requests _ _ _ _ E). simpl.
    rewrite <- app_assoc. simpl. do 2 f_equal.
    rewrite <- (names_of_entries (declared schema) counts Hlen).
    rewrite !map_map. reflexivity. }
  destruct (schema_endpoint remote h schema_url) as [e | response];
    [discriminate | exact (Hrest response Hcat)].
Qed.

(** X10. A schema without [classes], or with an empty list of them, gives
    the empty catalog, and the schema request is the only one sent. *)
Theorem getCollections_no_classes :
  forall (h : History) (response : Response WeaviateSchemaResponse)
         (schema : WeaviateSchemaResponse),
    schema_endpoint remote h schema_url = Resolved response ->
    ok response = true ->
    json response = inr schema ->
    classes schema = None \/ classes schema = Some [] ->
    getCollections WEAVIATE_URL remote h = (inr [], h ++ [GetSchema schema_url]).
Proof.
  intros h response schema Hfetch Hok Hjson Hnone.
  rewrite (getCollections_run _ _ h response schema Hfetch Hok Hjson).
  unfold declared. destruct Hnone as [-> | ->]; reflexivity.
Qed.

(** X11. When the schema fetch is rejected, or its 2xx body does not
    parse, [getCollections] throws that same error after the schema request
    alone: no aggregate query is sent. *)
Theorem getCollections_fetch_failure :
  (forall (h : History) (e : JsError),
     schema_endpoint remote h schema_url = Rejected e ->
     getCollections WEAVIATE_URL remote h = (inl e, h ++ [GetSchema schema_url]))
  /\
  (forall (h : History) (response : Response WeaviateSchemaResponse) (e : JsError),
     schema_endpoint remote h schema_url = Resolved response ->
     ok response = true ->
     json response = inl e ->
     getCollections WEAVIATE_URL remote h = (inl e, h ++ [GetSchema schema_url])).
Proof.
  split.
  - intros h e Hfetch. unfold getCollections. rewrite try_catch_rethrow.
    unfold bind, fetch_schema. fold schema_url. rewrite Hfetch. reflexivity.
  - intros h response e Hfetch Hok Hjson. unfold getCollections.
    rewrite try_catch_rethrow. unfold bind at 1, fetch_schema. fold schema_url.
    rewrite Hfetch, Hok. simpl. unfold bind, lift. rewrite Hjson. reflexivity.
Qed.

End MoreCatalog.

(** * Further properties of the route *)

Lemma append_separator (sep : ascii) (before segment : string) :
  (before ++ String sep segment)%string
  = ((before ++ String sep EmptyString) ++ segment)%string.
Proof.
  induction before as [| c before IH]; simpl; [reflexivity |].
  rewrite IH. reflexivity.
Qed.

(** What [split] and [pop] extract is a suffix without the separator. *)
Lemma pop_split_suffix (sep : ascii) (s extracted : string) :
  Js.pop (Js.split sep s) = Some extracted ->
  Js.lacks sep extracted = true /\
  exists before : string, s = (before ++ extracted)%string.
Proof.
  intros Hpop. destruct (last_separator sep s)
    as [Hlacks | (before & segment & -> & Hseg)].
  - rewrite (split_lacks _ _ Hlacks) in Hpop. injection Hpop as <-.
    split; [exact Hlacks | exists EmptyString; reflexivity].
  - rewrite (pop_split_app_sep _ _ _ Hseg) in Hpop. injection Hpop as <-.
    split; [exact Hseg |].
    exists (before ++ String sep EmptyString)%string. apply append_separator.
Qed.

Lemma pop_split_some (sep : ascii) (s : string) :
  exists extracted, Js.pop (Js.split sep s) = Some extracted.
Proof.
  destruct (last_separator sep s) as [Hlacks | (before & segment & -> & Hseg)].
  - exists s. rewrite (split_lacks _ _ Hlacks). reflexivity.
  - exists segment. apply pop_split_app_sep. exact Hseg.
Qed.

Section MoreRoute.

Variable WEAVIATE_URL : string.
Variable remote : Remote.
Variable new_URL : string -> JsError + URL.

Let graphql : string := WEAVIATE_URL ++ "/v1/graphql".

Lemma GET_invalid_url (request : NextRequest) (e : JsError) (h : History) :
  new_URL (url request) = inl e ->
  GET WEAVIATE_URL remote new_URL request h =
  (inr (failure_reply "Failed to fetch data" e), h).
Proof.
  intros Hurl. unfold GET, GET_calling, try_catch, bind at 1, lift.
  rewrite Hurl. reflexivity.
Qed.

(** X12. A GET request whose pathname is empty or ends with '/' is answered
    400 with [{error: 'Collection name is required'}], and nothing is sent
    to the database. *)
Theorem GET_without_name :
  forall (request : NextRequest) (u : URL) (h : History),
    new_URL (url request) = inr u ->
    pathname u = EmptyString \/
    (exists before : string, pathname u = (before ++ "/")%string) ->
    GET WEAVIATE_URL remote new_URL request h =
    (inr {| reply_status := 400;
            reply_body := JObj [("error", JStr "Collection name is required")] |},
     h).
Proof.
  intros request u h Hurl Hpath.
  rewrite (GET_run _ _ _ request u h Hurl). unfold GET_of_pathname.
  rewrite (proj2 (pop_split_empty "/" (pathname u)) Hpath). reflexivity.
Qed.

(** X13. The GET handler never throws: whatever the request and the
    database do, it returns a reply, and the status of the reply is 200,
    400, 404 or 500. *)
Theorem GET_always_replies :
  forall (request : NextRequest) (h : History),
    exists reply h',
      GET WEAVIATE_URL remote new_URL request h = (inr reply, h') /\
      In (reply_status reply) [200; 400; 404; 500].
Proof.
  intros request h. destruct (new_URL (url request)) as [e | u] eqn:Hurl.
  - rewrite (GET_invalid_url request e h Hurl).
    eexists _, _. split; [reflexivity | simpl; tauto].
  - rewrite (GET_run _ _ _ request u h Hurl). unfold GET_of_pathname.
    destruct (Js.pop _) as [wanted |];
      [| eexists _, _; split; [reflexivity | simpl; tauto]].
    destruct (Js.nonempty wanted);
      [| eexists _, _; split; [reflexivity | simpl; tauto]].
    destruct (getCollections _ _ h) as [[e | collections] h1];
      [eexists _, _; split; [reflexivity | simpl; tauto] |].
    destruct (find _ collections) as [info |];
      [| eexists _, _; split; [reflexivity | simpl; tauto]].
    destruct (getCollectionData _ _ _ _ h1) as [[e | data] h2];
      eexists _, _; (split; [reflexivity | simpl; tauto]).
Qed.

(** X14. The DELETE handler never throws: it returns a reply whose status
    is 200, 400 or 500, and it asks for at most one deletion. *)
Theorem DELETE_always_replies :
  forall (request : NextRequest) (h : History),
    exists reply h',
      DELETE remote request h = (inr reply, h') /\
      In (reply_status reply) [200; 400; 500] /\
      (h' = h \/ exists deleted, h' = h ++ [DeleteClass deleted]).
Proof.
  intros request h. rewrite DELETE_run.
  destruct (Js.pop _) as [wanted |];
    [| eexists _, _; split; [reflexivity | split; [simpl; tauto | left; reflexivity]]].
  destruct (Js.nonempty wanted);
    [| eexists _, _; split; [reflexivity | split; [simpl; tauto | left; reflexivity]]].
  destruct (delete_class remote h wanted);
    eexists _, _;
    (split; [reflexivity | split; [simpl; tauto | right; eexists; reflexivity]]).
Qed.

(** X15. Every failure under the GET handler becomes a 500 reply whose
    [details] is the message of the error: an unparsable URL (nothing is
    sent), a failure of [getCollections], and a failure of
    [getCollectionData]. *)
Theorem GET_failure_is_500 :
  (forall (request : NextRequest) (e : JsError) (h : History),
     new_URL (url request) = inl e ->
     GET WEAVIATE_URL remote new_URL request h =
     (inr {| reply_status := 500;
             reply_body := JObj [("error", JStr "Failed to fetch data");
                                 ("details", JStr (err_message e))] |}, h))
  /\
  (forall (request : NextRequest) (u : URL) (wanted : string) (e : JsError)
          (h h1 : History),
     new_URL (url request) = inr u ->
     Js.pop (Js.split "/" (pathname u)) = Some wanted ->
     wanted <> EmptyString ->
     getCollections WEAVIATE_URL remote h = (inl e, h1) ->
     GET WEAVIATE_URL remote new_URL request h =
     (inr {| reply_status := 500;
             reply_body := JObj [("error", JStr "Failed to fetch data");
                                 ("details", JStr (err_message e))] |}, h1))
  /\
  (forall (request : NextRequest) (u : URL) (wanted : string) (e : JsError)
          (collections : list CollectionInfo) (info : CollectionInfo)
          (h h1 h2 : History),
     new_URL (url request) = inr u ->
     Js.pop (Js.split "/" (pathname u)) = Some wanted ->
     wanted <> EmptyString ->
     getCollections WEAVIATE_URL remote h = (inr collections, h1) ->
     find (named wanted) collections = Some info ->
     getCollectionData WEAVIATE_URL remote wanted (propertyArguments info) h1
       = (inl e, h2) ->
     GET WEAVIATE_URL remote new_URL request h =
     (inr {| reply_status := 500;
             reply_body := JObj [("error", JStr "Failed to fetch data");
                                 ("details", JStr (err_message e))] |}, h2)).
Proof.
  split; [| split].
  - intros request e h Hurl. exact (GET_invalid_url request e h Hurl).
  - intros request u wanted e h h1 Hurl Hname Hne Hcat.
    rewrite (GET_run _ _ _ request u h Hurl). unfold GET_of_pathname.
    rewrite Hname, (nonempty_true _ Hne), Hcat. reflexivity.
  - intros request u wanted e collections info h h1 h2 Hurl Hname Hne Hcat Hfind Hdata.
    rewrite (GET_run _ _ _ request u h Hurl). unfold GET_of_pathname.
    rewrite Hname, (nonempty_true _ Hne), Hcat, Hfind, Hdata. reflexivity.
Qed.

(** X16. The GET handler sends a Get query only for a collection of the
    catalog: after the requests of [getCollections], it sends either
    nothing, or the one Get query built from the name and the property
    names of an entry that [getCollections] returned. *)
Theorem GET_queries_only_catalogued :
  forall (request : NextRequest) (h : History),
    snd (GET WEAVIATE_URL remote new_URL request h) = h \/
    snd (GET WEAVIATE_URL remote new_URL request h)
      = snd (getCollections WEAVIATE_URL remote h) \/
    exists collections info,
      fst (getCollections WEAVIATE_URL remote h) = inr collections /\
      In info collections /\
      snd (GET WEAVIATE_URL remote new_URL request h)
        = snd (getCollections WEAVIATE_URL remote h) ++
          [PostGraphql graphql (getQuery (name info) (propertyArguments info))].
Proof.
  intros request h. destruct (new_URL (url request)) as [e | u] eqn:Hurl.
  - left. rewrite (GET_invalid_url request e h Hurl). reflexivity.
  - rewrite (GET_run _ _ _ request u h Hurl). unfold GET_of_pathname.
    destruct (Js.pop _) as [wanted |]; [| left; reflexivity].
    destruct (Js.nonempty wanted); [| left; reflexivity].
    destruct (getCollections _ _ h) as [[e | collections] h1];
      [right; left; reflexivity |].
    destruct (find _ collections) as [info |] eqn:Hfind;
      [| right; left; reflexivity].
    right; right. exists collections, info.
    apply find_some in Hfind as [Hin Hnamed].
    unfold named in Hnamed. apply String.eqb_eq in Hnamed.
    split; [reflexivity | split; [exact Hin |]].
    pose proof (getCollectionData_sends WEAVIATE_URL remote wanted
                  (propertyArguments info) h1) as Hsend.
    rewrite Hnamed. fold graphql in Hsend.
    destruct (getCollectionData _ _ _ _ h1) as [[e | data] h2]; exact Hsend.
Qed.

(** X17. End to end: when the collection is in the catalog, its name is
    not the name of a member of [Object.prototype], and the answer to its
    Get query is a well-formed envelope, the GET handler replies 200 with
    [{data: rows}], the rows being the member of [data.Get] for the
    collection, or the empty sequence when there is none. *)
Theorem GET_found_rows :
  forall (request : NextRequest) (u : URL) (wanted : string)
         (collections : list CollectionInfo) (info : CollectionInfo)
         (h h1 h2 : History) (response : JSON) (Get : list (string * JSON)),
    new_URL (url request) = inr u ->
    Js.pop (Js.split "/" (pathname u)) = Some wanted ->
    wanted <> EmptyString ->
    Json.inherited KObject wanted = false ->
    getCollections WEAVIATE_URL remote h = (inr collections, h1) ->
    find (named wanted) collections = Some info ->
    executeQuery WEAVIATE_URL remote (getQuery wanted (propertyArguments info)) h1
      = (inr response, h2) ->
    well_formed response = Some Get ->
    GET WEAVIATE_URL remote new_URL request h =
    (inr {| reply_status := 200;
            reply_body :=
              JObj [("data", match Json.lookup wanted Get with
                             | Some rows => rows
                             | None => JArr []
                             end)] |}, h2).
Proof.
  intros request u wanted collections info h h1 h2 response Get
    Hurl Hname Hne Hplain Hcat Hfind Hrun Hwf.
  rewrite (GET_run _ _ _ request u h Hurl). unfold GET_of_pathname.
  rewrite Hname, (nonempty_true _ Hne), Hcat, Hfind.
  rewrite getCollectionData_run, Hrun.
  destruct (rows_of_well_formed response Get wanted Hwf Hplain) as [-> ->].
  reflexivity.
Qed.

(** X18. A DELETE request whose URL ends with a non-empty segment after its
    last '/' asks the database once to delete the class of that name, and
    replies 200 with [{success: true}] when the deletion succeeds, 500 with
    the message of the error as [details] when it fails. *)
Theorem DELETE_requests_last_segment :
  forall (request : NextRequest) (before segment : string) (h : History),
    url request = (before ++ "/" ++ segment)%string ->
    Js.lacks "/" segment = true ->
    segment <> EmptyString ->
    DELETE remote request h =
    (inr match delete_class remote h segment with
         | None =>
             {| reply_status := 200;
                reply_body := JObj [("success", JBool true)] |}
         | Some e =>
             {| reply_status := 500;
                reply_body := JObj [("error", JStr "Failed to delete collection");
                                    ("details", JStr (err_message e))] |}
         end,
     h ++ [DeleteClass segment]).
Proof.
  intros request before segment h Hurl Hseg Hne.
  rewrite DELETE_run, Hurl.
  change (before ++ "/" ++ segment)%string
    with (before ++ String "/" segment)%string.
  rewrite (pop_split_app_sep _ _ _ Hseg), (nonempty_true _ Hne).
  destruct (delete_class remote h segment); reflexivity.
Qed.

(** X19. Whatever the URL, the name the DELETE handler passes to
    [deleteCollection] is not empty, contains no '/', and is a suffix of the
    request URL. *)
Theorem DELETE_name_is_suffix :
  forall (request : NextRequest) (h : History) (deleted : string),
    In (DeleteClass deleted) (snd (DELETE remote request h)) ->
    In (DeleteClass deleted) h \/
    (deleted <> EmptyString /\
     Js.lacks "/" deleted = true /\
     exists before : string, url request = (before ++ deleted)%string).
Proof.
  intros request h deleted. rewrite DELETE_run.
  destruct (Js.pop _) as [wanted |] eqn:Hpop; [| intros Hin; left; exact Hin].
  destruct (Js.nonempty wanted) eqn:Hne; [| intros Hin; left; exact Hin].
  assert (Hsent : In (DeleteClass deleted) (h ++ [DeleteClass wanted]) ->
    In (DeleteClass deleted) h \/
    (deleted <> EmptyString /\ Js.lacks "/" deleted = true /\
     exists before : string, url request = (before ++ deleted)%string)).
  { intros Hin. apply in_app_or in Hin as [Hin | [[= <-] | []]]; [left; exact Hin |].
    right. destruct (pop_split_suffix _ _ _ Hpop) as (Hlacks & Hsuffix).
    split; [intros ->; discriminate Hne | split; assumption]. }
  destruct (delete_class remote h wanted); exact Hsent.
Qed.

End MoreRoute.

(** * Properties of the configuration and of the page *)

(** X20. When the module loads, the URL it keeps is not empty; it is the
    server configuration's URL whenever that one is present and not empty,
    and otherwise the public configuration's. *)
Theorem configure_prefers_server :
  (forall (s : RuntimeConfig) (public : option RuntimeConfig) (u : string),
     weaviateUrl s = Some u ->
     u <> EmptyString ->
     configure (Some s) public = inr u)
  /\
  (forall (server public : option RuntimeConfig) (u : string),
     configure server public = inr u ->
     u <> EmptyString /\
     (match server with Some c => weaviateUrl c | None => None end = Some u \/
      match public with Some c => weaviateUrl c | None => None end = Some u))
  /\
  (forall (server : option RuntimeConfig) (p : RuntimeConfig) (u : string),
     match server with Some c => weaviateUrl c | None => None end = None \/
     match server with Some c => weaviateUrl c | None => None end = Some EmptyString ->
     weaviateUrl p = Some u ->
     u <> EmptyString ->
     configure server (Some p) = inr u).
Proof.
  split; [| split].
  - intros s public u Hs Hne. unfold configure. rewrite Hs.
    rewrite (nonempty_true _ Hne). cbn. rewrite (nonempty_true _ Hne). reflexivity.
  - intros server public u. unfold configure.
    destruct (match server with Some c => weaviateUrl c | None => None end)
      as [s |] eqn:Hs.
    + destruct (Js.nonempty s) eqn:Hne.
      * rewrite Hne. cbn. intros [= <-]. split; [intros ->; discriminate | left; reflexivity].
      * destruct (match public with Some c => weaviateUrl c | None => None end)
          as [p |]; [| discriminate].
        destruct (Js.nonempty p) eqn:Hp; cbn; [| discriminate].
        intros [= <-]. split; [intros ->; discriminate | right; reflexivity].
    + destruct (match public with Some c => weaviateUrl c | None => None end)
        as [p |]; [| discriminate].
      destruct (Js.nonempty p) eqn:Hp; cbn; [| discriminate].
      intros [= <-]. split; [intros ->; discriminate | right; reflexivity].
  - intros server p u Hserver Hp Hne. unfold configure.
    destruct Hserver as [-> | ->]; cbn; rewrite Hp, (nonempty_true _ Hne);
      reflexivity.
Qed.

Section Page.

Variable WEAVIATE_URL : string.
Variable remote : Remote.

Let schema_url : string := WEAVIATE_URL ++ "/v1/schema".

(** X21. When [fetchCollections] settles, [loading] is false whatever
    happened; on success the list is the catalog and the error is cleared;
    on failure the error is the message of what was thrown and the list is
    left as it was.  The requests sent are those of [getCollections]. *)
Theorem fetchCollections_settles :
  forall (s : HomeState) (h : History),
    st_loading (fst (fetchCollections WEAVIATE_URL remote s h)) = false /\
    snd (fetchCollections WEAVIATE_URL remote s h)
      = snd (getCollections WEAVIATE_URL remote h) /\
    (forall result,
       fst (getCollections WEAVIATE_URL remote h) = inr result ->
       st_collections (fst (fetchCollections WEAVIATE_URL remote s h)) = result /\
       st_error (fst (fetchCollections WEAVIATE_URL remote s h)) = None) /\
    (forall e,
       fst (getCollections WEAVIATE_URL remote h) = inl e ->
       st_collections (fst (fetchCollections WEAVIATE_URL remote s h))
         = st_collections s /\
       st_error (fst (fetchCollections WEAVIATE_URL remote s h))
         = Some (err_message e)).
Proof.
  intros s h. unfold fetchCollections.
  destruct (getCollections WEAVIATE_URL remote h) as [[e | result] h'];
    cbn [fst snd]; (split; [reflexivity | split; [reflexivity | split]]).
  - intros r Hr. discriminate Hr.
  - intros e0 [= <-]. split; reflexivity.
  - intros r [= <-]. split; reflexivity.
  - intros e0 He. discriminate He.
Qed.

(** X22. What the page shows once the fetch started on mount has settled:
    the catalog and no alert when [getCollections] returned; and, when the
    schema fetch came back with a status outside 200-299, the alert
    'Failed to fetch schema: ' followed by the status text, above an empty
    list.  The spinner is gone in both cases. *)
Theorem Home_after_mount :
  (forall (h : History) (result : list CollectionInfo),
     fst (getCollections WEAVIATE_URL remote h) = inr result ->
     Home_render (fst (fetchCollections WEAVIATE_URL remote Home_initial h)) =
     {| alert := None; content := CollectionsList result |})
  /\
  (forall (h : History) (response : Response WeaviateSchemaResponse),
     schema_endpoint remote h schema_url = Resolved response ->
     ok response = false ->
     Home_render (fst (fetchCollections WEAVIATE_URL remote Home_initial h)) =
     {| alert := Some ("Failed to fetch schema: " ++ statusText response)%string;
        content := CollectionsList [] |}).
Proof.
  split.
  - intros h result Hcat. unfold fetchCollections.
    destruct (getCollections WEAVIATE_URL remote h) as [[e | r] h'];
      [discriminate |].
    injection Hcat as ->. reflexivity.
  - intros h response Hfetch Hok. unfold fetchCollections, getCollections.
    rewrite try_catch_rethrow. unfold bind, fetch_schema. fold schema_url.
    rewrite Hfetch, Hok. reflexivity.
Qed.

End Page.

(** * The catalog stops at the first count that throws *)

Section Stop.

Variable WEAVIATE_URL : string.
Variable remote : Remote.

Let graphql : string := WEAVIATE_URL ++ "/v1/graphql".
Let schema_url : string := WEAVIATE_URL ++ "/v1/schema".

Lemma fetched_counts_app (front back : list string) :
  forall h,
    fetched_counts WEAVIATE_URL remote (front ++ back) h =
    match fetched_counts WEAVIATE_URL remote front h with
    | (inl e, h1) => (inl e, h1)
    | (inr counts, h1) =>
        match fetched_counts WEAVIATE_URL remote back h1 with
        | (inl e, h2) => (inl e, h2)
        | (inr counts', h2) => (inr (counts ++ counts'), h2)
        end
    end.
Proof.
  induction front as [| n front IH]; intros h; simpl.
  - unfold ret. destruct (fetched_counts _ _ back h) as [[e | cs] h2]; reflexivity.
  - unfold bind at 1 3.
    destruct (getObjectCount _ _ n h) as [[e | c] h0]; [reflexivity |].
    unfold bind, ret. rewrite IH.
    destruct (fetched_counts _ _ front h0) as [[e | cs] h1]; [reflexivity |].
    destruct (fetched_counts _ _ back h1) as [[e | cs'] h2]; reflexivity.
Qed.

(** X23. When the count of a declared class throws, after the counts of
    the classes before it were fetched, [getCollections] throws that error
    and returns no entry; the last request sent is the aggregate query of
    that class, and no query is sent for the classes after it. *)
Theorem getCollections_stops_at_throw :
  forall (h h1 h2 : History) (response : Response WeaviateSchemaResponse)
         (schema : WeaviateSchemaResponse)
         (before after : list WeaviateClass) (c : WeaviateClass)
         (counts : list JSON) (e : JsError),
    schema_endpoint remote h schema_url = Resolved response ->
    ok response = true ->
    json response = inr schema ->
    declared schema = before ++ c :: after ->
    fetched_counts WEAVIATE_URL remote (map class before)
      (h ++ [GetSchema schema_url]) = (inr counts, h1) ->
    getObjectCount WEAVIATE_URL remote (class c) h1 = (inl e, h2) ->
    getCollections WEAVIATE_URL remote h = (inl e, h2) /\
    h2 = h ++ GetSchema schema_url ::
              map (fun k => PostGraphql graphql (aggregateQuery (class k)))
                  (before ++ [c]).
Proof.
  intros h h1 h2 response schema before after c counts e
    Hfetch Hok Hjson Hdecl Hcounts Hthrow.
  rewrite (getCollections_run _ _ h response schema Hfetch Hok Hjson), collect_run.
  fold schema_url. rewrite Hdecl, map_app, fetched_counts_app, Hcounts.
  simpl. unfold bind at 1. rewrite Hthrow. split; [reflexivity |].
  rewrite getObjectCount_run in Hthrow. injection Hthrow as _ <-.
  rewrite (fetched_counts_requests _ _ _ _ _ _ Hcounts).
  rewrite <- !app_assoc. simpl. f_equal. f_equal.
  rewrite map_app, map_map. reflexivity.
Qed.

End Stop.

(** * The further properties at concrete requests *)

(** X1 at a GraphQL endpoint that answers 503. *)
Lemma executeQuery_outcome_witness :
  fst (executeQuery Platform.base Platform.graphql_down "{ Get }" []) =
  inl (Error "Query failed: Service Unavailable").
Proof.
  apply (proj1 (proj2 (executeQuery_outcome Platform.base Platform.graphql_down
                         "{ Get }" []))
           {| status := 503; statusText := "Service Unavailable";
              json := inl (mkError "SyntaxError" "Unexpected end of JSON input") |}).
  - reflexivity.
  - reflexivity.
Defined.

(** X2 at a GraphQL endpoint that answers [{ "errors": [] }]. *)
Lemma getObjectsByClass_missing_envelope_witness :
  exists e,
    getObjectsByClass Platform.base Platform.errors_only "Article" [] =
    (inl e, [PostGraphql "http://localhost:8080/v1/graphql" (objectsQuery "Article")])
    /\ err_name e = "TypeError".
Proof.
  apply (getObjectsByClass_missing_envelope Platform.base Platform.errors_only
           "Article" [] _ (JObj [("errors", JArr [])])).
  - reflexivity.
  - reflexivity.
Defined.

(** X3 at an endpoint that answers both queries with the Article rows. *)
Lemma getObjectsByClass_agrees_witness :
  getObjectsByClass Platform.base (Fixtures.always Platform.article_data) "Article" [] =
  (inr (Doc Platform.article_rows),
   [PostGraphql "http://localhost:8080/v1/graphql" (objectsQuery "Article")]).
Proof.
  apply (getObjectsByClass_agrees Platform.base (Fixtures.always Platform.article_data)
           "Article" [Platform.title] []
           [PostGraphql "http://localhost:8080/v1/graphql"
              (getQuery "Article" [Platform.title])]
           [] _ Platform.article_data (Doc Platform.article_rows)).
  - reflexivity.
  - reflexivity.
  - reflexivity.
Defined.

(** X4 at an endpoint whose [Get] holds [0] for the class. *)
Lemma rows_never_falsy_witness :
  getCollectionData Platform.base
    (Fixtures.always (JObj [("data", JObj [("Get", JObj [("Article", JNum 0)])])]))
    "Article" [Platform.title] [] =
  (inr (Doc (JArr [])),
   [PostGraphql "http://localhost:8080/v1/graphql"
      (getQuery "Article" [Platform.title])])
  /\
  (Doc (JArr []) <> Doc JNull /\ Doc (JArr []) <> Doc (JBool false) /\
   Doc (JArr []) <> Doc (JNum 0) /\ Doc (JArr []) <> Doc (JStr EmptyString)).
Proof.
  split.
  - apply (proj1 (proj2 (proj2 (rows_never_falsy Platform.base
                    (Fixtures.always
                       (JObj [("data", JObj [("Get", JObj [("Article", JNum 0)])])])))))
             "Article" [Platform.title] [] _
             [("data", JObj [("Get", JObj [("Article", JNum 0)])])]
             [("Get", JObj [("Article", JNum 0)])]
             [("Article", JNum 0)] (JNum 0)).
    + reflexivity.
    + reflexivity.
    + reflexivity.
    + reflexivity.
    + right. right. left. reflexivity.
  - apply (proj1 (rows_never_falsy Platform.base
                    (Fixtures.always
                       (JObj [("data", JObj [("Get", JObj [("Article", JNum 0)])])])))
             "Article" [Platform.title] []
             [PostGraphql "http://localhost:8080/v1/graphql"
                (getQuery "Article" [Platform.title])]
             (Doc (JArr []))).
    reflexivity.
Defined.

(** X5 at two property lists that differ in [dataType] only. *)
Lemma dataType_never_read_witness :
  getCollectionData Platform.base Platform.healthy "Article"
    [ {| arg_name := "title"; arg_dataType := ["text"] |} ] [] =
  getCollectionData Platform.base Platform.healthy "Article"
    [ {| arg_name := "title"; arg_dataType := ["string"] |} ] [].
Proof.
  apply (dataType_never_read Platform.base Platform.healthy "Article"
           [ {| arg_name := "title"; arg_dataType := ["text"] |} ]
           [ {| arg_name := "title"; arg_dataType := ["string"] |} ] []).
  reflexivity.
Defined.

(** X6 at the database holding one Article. *)
Lemma getObjectCount_first_entry_witness :
  getObjectCount Platform.base Platform.healthy "Article" [] =
  (inr (JNum 1),
   [PostGraphql "http://localhost:8080/v1/graphql" (aggregateQuery "Article")]).
Proof.
  apply (getObjectCount_first_entry Platform.base Platform.healthy "Article" [] _
           [("data", JObj [("Aggregate",
              JObj [("Article", JArr [JObj [("meta", JObj [("count", JNum 1)])]])])])]
           [("Aggregate",
              JObj [("Article", JArr [JObj [("meta", JObj [("count", JNum 1)])]])])]
           [("Article", JArr [JObj [("meta", JObj [("count", JNum 1)])]])]
           [("meta", JObj [("count", JNum 1)])]
           [("count", JNum 1)] [] (JNum 1)).
  - reflexivity.
  - reflexivity.
  - reflexivity.
  - reflexivity.
  - reflexivity.
  - reflexivity.
  - discriminate.
Defined.

(** X7 at an endpoint that answers [null], and at one whose [Aggregate]
    has no member for the class. *)
Lemma getObjectCount_defaults_zero_witness :
  getObjectCount Platform.base (Fixtures.always JNull) "Article" [] =
  (inr (JNum 0),
   [PostGraphql "http://localhost:8080/v1/graphql" (aggregateQuery "Article")])
  /\
  getObjectCount Platform.base (Fixtures.always Platform.article_count) "Other" [] =
  (inr (JNum 0),
   [PostGraphql "http://localhost:8080/v1/graphql" (aggregateQuery "Other")]).
Proof.
  split.
  - apply (proj1 (getObjectCount_defaults_zero Platform.base (Fixtures.always JNull))
             "Article" [] _).
    reflexivity.
  - apply (proj1 (proj2 (getObjectCount_defaults_zero Platform.base
                           (Fixtures.always Platform.article_count)))
             "Other" [] _
             [("data", JObj [("Aggregate",
                JObj [("Article", JArr [JObj [("meta", JObj [("count", JNum 1)])]])])])]
             [("Aggregate",
                JObj [("Article", JArr [JObj [("meta", JObj [("count", JNum 1)])]])])]
             [("Article", JArr [JObj [("meta", JObj [("count", JNum 1)])]])]).
    + reflexivity.
    + reflexivity.
    + reflexivity.
    + left. reflexivity.
Defined.

(** X8 at a GraphQL endpoint that answers [{ "errors": [] }]. *)
Lemma getObjectCount_throws_iff_witness :
  exists e, fst (getObjectCount Platform.base Platform.errors_only "Article" []) = inl e.
Proof.
  apply (proj2 (proj1 (getObjectCount_throws_iff Platform.base Platform.errors_only
                         "Article" []))).
  exists (JObj [("errors", JArr [])]). split; reflexivity.
Defined.

(** X9 at the database holding one Article. *)
Lemma getCollections_requests_witness :
  Platform.after_catalog =
  [] ++ GetSchema "http://localhost:8080/v1/schema" ::
        map (fun info =>
               PostGraphql "http://localhost:8080/v1/graphql"
                 (aggregateQuery (name info)))
            Platform.catalog.
Proof.
  apply (getCollections_requests Platform.base Platform.healthy []
           Platform.after_catalog Platform.catalog).
  reflexivity.
Defined.

(** X10 at a schema without [classes]. *)
Lemma getCollections_no_classes_witness :
  getCollections Platform.base Fixtures.empty_schema [] =
  (inr [], [GetSchema "http://localhost:8080/v1/schema"]).
Proof.
  apply (getCollections_no_classes Platform.base Fixtures.empty_schema []
           {| status := 200; statusText := "OK"; json := inr {| classes := None |} |}
           {| classes := None |}).
  - reflexivity.
  - reflexivity.
  - reflexivity.
  - left. reflexivity.
Defined.

(** X11 at a database that cannot be reached. *)
Lemma getCollections_fetch_failure_witness :
  getCollections Platform.base Fixtures.offline [] =
  (inl (TypeError "fetch failed"), [GetSchema "http://localhost:8080/v1/schema"]).
Proof.
  apply (proj1 (getCollections_fetch_failure Platform.base Fixtures.offline) []
           (TypeError "fetch failed")).
  reflexivity.
Defined.

(** X23 at the database whose second class has a broken aggregate answer. *)
Lemma getCollections_stops_at_throw_witness :
  getCollections Platform.base Fixtures.second_broken [] =
  (inl (TypeError "Cannot read properties of undefined (reading 'Aggregate')"),
   [GetSchema "http://localhost:8080/v1/schema";
    PostGraphql "http://localhost:8080/v1/graphql" (aggregateQuery "Article");
    PostGraphql "http://localhost:8080/v1/graphql" (aggregateQuery "Broken")])
  /\
  [GetSchema "http://localhost:8080/v1/schema";
   PostGraphql "http://localhost:8080/v1/graphql" (aggregateQuery "Article");
   PostGraphql "http://localhost:8080/v1/graphql" (aggregateQuery "Broken")] =
  [] ++ GetSchema "http://localhost:8080/v1/schema" ::
        map (fun k => PostGraphql "http://localhost:8080/v1/graphql"
                        (aggregateQuery (class k)))
            ([Platform.article] ++ [Fixtures.class_named "Broken"]).
Proof.
  apply (getCollections_stops_at_throw Platform.base Fixtures.second_broken
           []
           [GetSchema "http://localhost:8080/v1/schema";
            PostGraphql "http://localhost:8080/v1/graphql" (aggregateQuery "Article")]
           _
           {| status := 200; statusText := "OK";
              json := inr {| classes := Some [Platform.article;
                                              Fixtures.class_named "Broken";
                                              Fixtures.class_named "Later"] |} |}
           {| classes := Some [Platform.article; Fixtures.class_named "Broken";
                               Fixtures.class_named "Later"] |}
           [Platform.article] [Fixtures.class_named "Later"]
           (Fixtures.class_named "Broken") [JNum 1]).
  - reflexivity.
  - reflexivity.
  - reflexivity.
  - reflexivity.
  - reflexivity.
  - reflexivity.
Defined.

(** X12 at [GET /api/collection/]. *)
Lemma GET_without_name_witness :
  GET Platform.base Platform.healthy Platform.new_URL
    {| url := "http://localhost:3000/api/collection/" |} [] =
  (inr {| reply_status := 400;
          reply_body := JObj [("error", JStr "Collection name is required")] |},
   []).
Proof.
  apply (GET_without_name Platform.base Platform.healthy Platform.new_URL
           {| url := "http://localhost:3000/api/collection/" |}
           {| pathname := "/api/collection/"; searchParams := [] |} []).
  - reflexivity.
  - right. exists "/api/collection". reflexivity.
Defined.

(** X15 at a database whose schema endpoint answers 503. *)
Lemma GET_failure_is_500_witness :
  GET Platform.base Platform.schema_down Platform.new_URL
    {| url := "http://localhost:3000/api/collection/Article" |} [] =
  (inr {| reply_status := 500;
          reply_body :=
            JObj [("error", JStr "Failed to fetch data");
                  ("details", JStr "Failed to fetch schema: Service Unavailable")] |},
   [GetSchema "http://localhost:8080/v1/schema"]).
Proof.
  apply (proj1 (proj2 (GET_failure_is_500 Platform.base Platform.schema_down
                         Platform.new_URL))
           {| url := "http://localhost:3000/api/collection/Article" |}
           {| pathname := "/api/collection/Article"; searchParams := [] |}
           "Article" (Error "Failed to fetch schema: Service Unavailable")
           [] [GetSchema "http://localhost:8080/v1/schema"]).
  - reflexivity.
  - reflexivity.
  - discriminate.
  - reflexivity.
Defined.

(** X17 at a request for the Article collection. *)
Lemma GET_found_rows_witness :
  GET Platform.base Platform.healthy Platform.new_URL
    {| url := "http://localhost:3000/api/collection/Article" |} [] =
  (inr {| reply_status := 200;
          reply_body := JObj [("data", JArr [JObj [("title", JStr "A")]])] |},
   Platform.after_catalog ++
   [PostGraphql "http://localhost:8080/v1/graphql"
      (getQuery "Article" [Platform.title])]).
Proof.
  apply (GET_found_rows Platform.base Platform.healthy Platform.new_URL
           {| url := "http://localhost:3000/api/collection/Article" |}
           {| pathname := "/api/collection/Article"; searchParams := [] |}
           "Article" Platform.catalog
           {| name := "Article";
              description := Some "News articles";
              count := JNum 1;
              properties := [ {| prop_name := "title";
                                 prop_description := None;
                                 prop_dataType := None |} ] |}
           [] Platform.after_catalog _ Platform.article_data
           [("Article", Platform.article_rows)]).
  - reflexivity.
  - reflexivity.
  - discriminate.
  - reflexivity.
  - reflexivity.
  - reflexivity.
  - reflexivity.
  - reflexivity.
Defined.

(** X18 at [DELETE /api/collection/Foo], with a database that deletes and
    with one that cannot be reached. *)
Lemma DELETE_requests_last_segment_witness :
  DELETE Platform.healthy {| url := "http://localhost:3000/api/collection/Foo" |} [] =
  (inr {| reply_status := 200; reply_body := JObj [("success", JBool true)] |},
   [DeleteClass "Foo"])
  /\
  DELETE Fixtures.offline {| url := "http://localhost:3000/api/collection/Foo" |} [] =
  (inr {| reply_status := 500;
          reply_body := JObj [("error", JStr "Failed to delete collection");
                              ("details", JStr "fetch failed")] |},
   [DeleteClass "Foo"]).
Proof.
  split.
  - apply (DELETE_requests_last_segment Platform.healthy
             {| url := "http://localhost:3000/api/collection/Foo" |}
             "http://localhost:3000/api/collection" "Foo" []).
    + reflexivity.
    + reflexivity.
    + discriminate.
  - apply (DELETE_requests_last_segment Fixtures.offline
             {| url := "http://localhost:3000/api/collection/Foo" |}
             "http://localhost:3000/api/collection" "Foo" []).
    + reflexivity.
    + reflexivity.
    + discriminate.
Defined.

(** X19 at a URL whose query string contains a '/'. *)
Lemma DELETE_name_is_suffix_witness :
  In (DeleteClass "b") [] \/
  ("b" <> EmptyString /\
   Js.lacks "/" "b" = true /\
   exists before : string,
     "http://localhost:3000/api/collection/Foo?x=a/b" = (before ++ "b")%string).
Proof.
  apply (DELETE_name_is_suffix Platform.healthy
           {| url := "http://localhost:3000/api/collection/Foo?x=a/b" |} [] "b").
  simpl. left. reflexivity.
Defined.

(** X20 at a server URL, with and without a public one. *)
Lemma configure_prefers_server_witness :
  configure (Some {| weaviateUrl := Some "http://weaviate:8080" |})
            (Some {| weaviateUrl := Some "http://localhost:8080" |})
  = inr "http://weaviate:8080"
  /\
  configure (Some {| weaviateUrl := Some "" |})
            (Some {| weaviateUrl := Some "http://localhost:8080" |})
  = inr "http://localhost:8080".
Proof.
  split.
  - apply (proj1 configure_prefers_server
             {| weaviateUrl := Some "http://weaviate:8080" |}
             (Some {| weaviateUrl := Some "http://localhost:8080" |})
             "http://weaviate:8080").
    + reflexivity.
    + discriminate.
  - apply (proj2 (proj2 configure_prefers_server)
             (Some {| weaviateUrl := Some "" |})
             {| weaviateUrl := Some "http://localhost:8080" |}
             "http://localhost:8080").
    + right. reflexivity.
    + reflexivity.
    + discriminate.
Defined.

(** X21 at a database that cannot be reached, from a state that already
    lists the catalog. *)
Lemma fetchCollections_settles_witness :
  st_collections
    (fst (fetchCollections Platform.base Fixtures.offline
            {| st_collections := Platform.catalog;
               st_loading := false; st_error := None |} []))
  = Platform.catalog
  /\
  st_error
    (fst (fetchCollections Platform.base Fixtures.offline
            {| st_collections := Platform.catalog;
               st_loading := false; st_error := None |} []))
  = Some "fetch failed".
Proof.
  apply (proj2 (proj2 (proj2 (fetchCollections_settles Platform.base Fixtures.offline
           {| st_collections := Platform.catalog;
              st_loading := false; st_error := None |} [])))
           (TypeError "fetch failed")).
  reflexivity.
Defined.

(** X22 at the database holding one Article and at one whose schema
    endpoint answers 503. *)
Lemma Home_after_mount_witness :
  Home_render (fst (fetchCollections Platform.base Platform.healthy Home_initial [])) =
  {| alert := None; content := CollectionsList Platform.catalog |}
  /\
  Home_render (fst (fetchCollections Platform.base Platform.schema_down Home_initial [])) =
  {| alert := Some "Failed to fetch schema: Service Unavailable";
     content := CollectionsList [] |}.
Proof.
  split.
  - apply (proj1 (Home_after_mount Platform.base Platform.healthy) [] Platform.catalog).
    reflexivity.
  - apply (proj2 (Home_after_mount Platform.base Platform.schema_down) []
             {| status := 503; statusText := "Service Unavailable";
                json := inl (mkError "SyntaxError" "Unexpected end of JSON input") |}).
    + reflexivity.
    + reflexivity.
Defined.

(** * Inherited members at work *)

(** Against [{data: {Get: {}}}], the class name [constructor] reads the
    function that [Object.prototype] supplies, and [NextResponse.json]
    leaves it out of the body; [__proto__] reads the prototype, written as
    an empty object. *)
Example constructor_is_inherited :
  fst (getCollectionData Platform.base (Fixtures.always Fixtures.empty_Get)
         "constructor" [] []) = inr (Inherited (Method KObject "constructor"))
  /\ rows_reply (Inherited (Method KObject "constructor")) =
     {| reply_status := 200; reply_body := JObj [] |}
  /\ fst (getCollectionData Platform.base (Fixtures.always Fixtures.empty_Get)
            "__proto__" [] []) = inr (Inherited (Proto KObject))
  /\ rows_reply (Inherited (Proto KObject)) =
     {| reply_status := 200; reply_body := JObj [("data", JObj [])] |}.
Proof. repeat split. Qed.

(** The catalog of a database with three classes keeps the order of the
    schema, each entry with the count of its own class. *)
Example library_catalog :
  map (fun info => (name info, count info, map prop_name (properties info)))
      match fst (getCollections Platform.base Fixtures.library []) with
      | inr result => result
      | inl _ => []
      end =
  [("Author", JNum 7, ["name"; "born"]);
   ("Article", JNum 1, ["title"]);
   ("Draft", JNum 0, [])].
Proof. reflexivity. Qed.
